(** * ArduinoCrashMonitor: the watchdog crash log of [CApplicationMonitor]

    A shallow embedding of [CrashTracking/ApplicationMonitor.h] and
    [CrashTracking/ApplicationMonitor.cpp], and the properties of the
    persistent header and circular report log kept in the EEPROM.

    The target is an 8-bit AVR compiled with avr-gcc: [int] is a 16-bit
    two's-complement integer, [size_t] and data pointers are 16-bit unsigned,
    [uint8_t] and [uint32_t] wrap modulo [2^8] and [2^32], and multi-byte
    objects are stored little-endian.  The structures are declared
    [__packed__], so their object representation has no padding. *)

From Stdlib Require Import ZArith Lia List String Bool.
From coqutil Require Import Byte Word.LittleEndianList.
Import ListNotations.
Local Open Scope Z_scope.

(** ** Machine integers *)

(** Conversion to [unsigned int], [size_t] or a data pointer. *)
Definition to_uint (z : Z) : Z := z mod 2 ^ 16.

(** Conversion to [int] (avr-gcc reduces modulo [2^16]). *)
Definition to_int (z : Z) : Z := (z + 2 ^ 15) mod 2 ^ 16 - 2 ^ 15.

(** Conversion to [uint8_t] and to [uint32_t]. *)
Definition to_uint8 (z : Z) : Z := z mod 2 ^ 8.
Definition to_uint32 (z : Z) : Z := z mod 2 ^ 32.

(** ** Compile-time configuration *)

(** The [#if defined(__AVR_ATmega2560__)] of the header. *)
Inductive target := ATmega2560 | OtherAVR.

Definition PROGRAM_COUNTER_SIZE (mcu : target) : nat :=
  match mcu with
  | ATmega2560 => 3
  | OtherAVR => 2
  end.

(** ** Structures *)

Record CApplicationMonitorHeader := mkHeader {
  m_uSavedReports : Z;   (* uint8_t *)
  m_uNextReport : Z      (* uint8_t *)
}.

Record CCrashReport := mkReport {
  m_auAddress : list byte;   (* uint8_t [PROGRAM_COUNTER_SIZE] *)
  m_uData : Z                (* uint32_t *)
}.

Record CApplicationMonitor := mkMonitor {
  c_nBaseAddress : Z;        (* const int *)
  c_nMaxEntries : Z;         (* const int *)
  m_CrashReport : CCrashReport
}.

Definition DEFAULT_ENTRIES : Z := 10.

(** The time-outs of [enum ETimeout]; their numeric values are the [WDTO_*]
    constants of [<avr/wdt.h>] and play no role here. *)
Inductive ETimeout :=
| Timeout_15ms | Timeout_30ms | Timeout_60ms | Timeout_120ms | Timeout_250ms
| Timeout_500ms | Timeout_1s | Timeout_2s | Timeout_4s | Timeout_8s.

Definition WDTO_120MS : ETimeout := Timeout_120ms.

(** [sizeof] of the two packed structures. *)
Definition sizeof_Header : nat := 2.
Definition sizeof_Report (mcu : target) : nat := PROGRAM_COUNTER_SIZE mcu + 4.

(** Object representations (what [ReadBlock] and [WriteBlock] see through
    their [void *] argument). *)
Definition Header_bytes (h : CApplicationMonitorHeader) : list byte :=
  [byte.of_Z (m_uSavedReports h); byte.of_Z (m_uNextReport h)].

Definition Header_of_bytes (bs : list byte) : CApplicationMonitorHeader :=
  {| m_uSavedReports := byte.unsigned (nth 0 bs Byte.x00);
     m_uNextReport := byte.unsigned (nth 1 bs Byte.x00) |}.

Definition Report_bytes (r : CCrashReport) : list byte :=
  m_auAddress r ++ le_split 4 (m_uData r).

Definition Report_of_bytes (mcu : target) (bs : list byte) : CCrashReport :=
  {| m_auAddress := firstn (PROGRAM_COUNTER_SIZE mcu) bs;
     m_uData := le_combine (firstn 4 (skipn (PROGRAM_COUNTER_SIZE mcu) bs)) |}.

(** ** The machine: the monitor object, the EEPROM and the watchdog *)

(** Every access to the EEPROM is recorded, in order. *)
Inductive access :=
| EeRead (p : Z)
| EeWrite (p : Z) (b : byte).

(** Calls made on a [Print] destination, in order. *)
Inductive radix := DEC | HEX.

Inductive print_call :=
| println_F (s : string)            (* println(F("...")) *)
| print_F (s : string)              (* print(pLabel) *)
| print_value (v : Z) (r : radix)   (* print(uValue, uRadix) *)
| print_uint8 (v : Z)               (* print(uReport) *)
| println_nl.                       (* println() *)

Record machine := mkMachine {
  ApplicationMonitor : CApplicationMonitor;   (* the single instance *)
  eeprom : Z -> byte;                         (* cell at each 16-bit address *)
  trace : list access;                        (* EEPROM accesses so far *)
  wdt : option ETimeout;                      (* armed watchdog time-out *)
  wdie : bool                                 (* WDTCSR.WDIE *)
}.

Definition M (A : Type) : Type := machine -> A * machine.

Definition ret {A} (a : A) : M A := fun m => (a, m).

Definition bind {A B} (c : M A) (k : A -> M B) : M B :=
  fun m => let (a, m') := c m in k a m'.

Notation "x <- c ;; k" := (bind c (fun x => k))
  (at level 61, c at next level, right associativity).
Notation "c ;;; k" := (bind c (fun _ => k))
  (at level 61, right associativity).

Definition gets {A} (f : machine -> A) : M A := fun m => (f m, m).

Definition exec {A} (c : M A) (m : machine) : machine := snd (c m).
Definition eval {A} (c : M A) (m : machine) : A := fst (c m).

(** *** EEPROM primitives of [<avr/eeprom.h>] *)

Definition upd (f : Z -> byte) (p : Z) (b : byte) : Z -> byte :=
  fun q => if q =? p then b else f q.

Definition eeprom_read_byte (p : Z) : M byte :=
  fun m => (eeprom m (to_uint p),
            mkMachine (ApplicationMonitor m) (eeprom m)
                      (trace m ++ [EeRead (to_uint p)]) (wdt m) (wdie m)).

Definition eeprom_write_byte (p : Z) (b : byte) : M unit :=
  fun m => (tt,
            mkMachine (ApplicationMonitor m) (upd (eeprom m) (to_uint p) b)
                      (trace m ++ [EeWrite (to_uint p) b]) (wdt m) (wdie m)).

(** *** Watchdog primitives of [<avr/wdt.h>] *)

Definition wdt_enable (t : ETimeout) : M unit :=
  fun m => (tt, mkMachine (ApplicationMonitor m) (eeprom m) (trace m)
                          (Some t) (wdie m)).

Definition wdt_disable : M unit :=
  fun m => (tt, mkMachine (ApplicationMonitor m) (eeprom m) (trace m)
                          None (wdie m)).

Definition wdt_reset : M unit := ret tt.

Definition set_WDIE : M unit :=
  fun m => (tt, mkMachine (ApplicationMonitor m) (eeprom m) (trace m)
                          (wdt m) true).

Definition set_CrashReport (r : CCrashReport) : M unit :=
  fun m => (tt, mkMachine
                  (mkMonitor (c_nBaseAddress (ApplicationMonitor m))
                             (c_nMaxEntries (ApplicationMonitor m)) r)
                  (eeprom m) (trace m) (wdt m) (wdie m)).

(** ** The class [CApplicationMonitor] *)

Section Monitor.

Variable mcu : target.

(** The constructor: value initialisation only.  The instance is a global,
    so [m_auAddress] starts zeroed. *)
Definition CApplicationMonitor_ctor (nBaseAddress nMaxEntries : Z)
  : CApplicationMonitor :=
  {| c_nBaseAddress := nBaseAddress;
     c_nMaxEntries := nMaxEntries;
     m_CrashReport :=
       {| m_auAddress := repeat Byte.x00 (PROGRAM_COUNTER_SIZE mcu);
          m_uData := 0 |} |}.

(** The machine right after start-up, on a given EEPROM content. *)
Definition boot (nBaseAddress nMaxEntries : Z) (ee : Z -> byte) : machine :=
  {| ApplicationMonitor := CApplicationMonitor_ctor nBaseAddress nMaxEntries;
     eeprom := ee; trace := []; wdt := None; wdie := false |}.

Definition EnableWatchdog (Timeout : ETimeout) : M unit :=
  wdt_enable Timeout ;;; set_WDIE.

Definition DisableWatchdog : M unit := wdt_disable.

Definition IAmAlive : M unit := wdt_reset.

Definition SetData (uData : Z) : M unit :=
  this <- gets ApplicationMonitor ;;
  set_CrashReport
    {| m_auAddress := m_auAddress (m_CrashReport this);
       m_uData := to_uint32 uData |}.

Definition GetData : M Z :=
  this <- gets ApplicationMonitor ;;
  ret (m_uData (m_CrashReport this)).

(** [while (uSize--) *puData++ = eeprom_read_byte(nBaseAddress++)] *)
Fixpoint ReadBlock (nBaseAddress : Z) (uSize : nat) : M (list byte) :=
  match uSize with
  | O => ret []
  | S n =>
      b <- eeprom_read_byte nBaseAddress ;;
      bs <- ReadBlock (to_int (nBaseAddress + 1)) n ;;
      ret (b :: bs)
  end.

(** [while (uSize--) eeprom_write_byte(nBaseAddress++, *puData++)] *)
Fixpoint WriteBlock (nBaseAddress : Z) (pData : list byte) (uSize : nat)
  : M unit :=
  match uSize with
  | O => ret tt
  | S n =>
      eeprom_write_byte nBaseAddress (hd Byte.x00 pData) ;;;
      WriteBlock (to_int (nBaseAddress + 1)) (tl pData) n
  end.

(** [int + size_t] and [int * size_t] are computed as [unsigned int] and the
    result is converted back to [int]. *)
Definition GetAddressForReport (nReport : Z) : M Z :=
  this <- gets ApplicationMonitor ;;
  let nAddress :=
    to_int (to_uint (c_nBaseAddress this) + Z.of_nat sizeof_Header) in
  let nAddress :=
    if nReport <? c_nMaxEntries this
    then to_int (to_uint nAddress
                 + to_uint (to_uint nReport * Z.of_nat (sizeof_Report mcu)))
    else nAddress in
  ret nAddress.

(** The validation done by [LoadHeader] on the header it has read. *)
Definition LoadHeader_validate (nMaxEntries : Z)
  (h : CApplicationMonitorHeader) : CApplicationMonitorHeader :=
  let h :=
    if m_uSavedReports h =? 255
    then mkHeader 0 (m_uNextReport h)
    else if m_uSavedReports h >? nMaxEntries
         then mkHeader (to_uint8 nMaxEntries) (m_uNextReport h)
         else h in
  if m_uNextReport h >=? nMaxEntries
  then mkHeader (m_uSavedReports h) 0
  else h.

Definition LoadHeader : M CApplicationMonitorHeader :=
  this <- gets ApplicationMonitor ;;
  raw <- ReadBlock (c_nBaseAddress this) sizeof_Header ;;
  ret (LoadHeader_validate (c_nMaxEntries this) (Header_of_bytes raw)).

Definition SaveHeader (rReportHeader : CApplicationMonitorHeader) : M unit :=
  this <- gets ApplicationMonitor ;;
  WriteBlock (c_nBaseAddress this) (Header_bytes rReportHeader) sizeof_Header.

Definition SaveCurrentReport (nReportSlot : Z) : M unit :=
  nAddress <- GetAddressForReport nReportSlot ;;
  this <- gets ApplicationMonitor ;;
  WriteBlock nAddress (Report_bytes (m_CrashReport this)) (sizeof_Report mcu).

(** Exchange of [a[0]] and [a[n - 1]]. *)
Definition set_nth (i : nat) (b : byte) (a : list byte) : list byte :=
  firstn i a ++ match skipn i a with
                | [] => []
                | _ :: t => b :: t
                end.

Definition swap_ends (n : nat) (a : list byte) : list byte :=
  let uTemp := nth 0 a Byte.x00 in
  let a := set_nth 0 (nth (n - 1) a Byte.x00) a in
  set_nth (n - 1) uTemp a.

Definition LoadReport (nReport : Z) : M CCrashReport :=
  nAddress <- GetAddressForReport nReport ;;
  raw <- ReadBlock nAddress (sizeof_Report mcu) ;;
  let rState := Report_of_bytes mcu raw in
  ret {| m_auAddress := swap_ends (PROGRAM_COUNTER_SIZE mcu) (m_auAddress rState);
         m_uData := m_uData rState |}.

(** [memcpy(dst, puProgramAddress, PROGRAM_COUNTER_SIZE)]: the source is the
    memory seen from the pointer. *)
Definition memcpy_pc (puProgramAddress : nat -> byte) : list byte :=
  map puProgramAddress (seq 0 (PROGRAM_COUNTER_SIZE mcu)).

(** The handler up to its final [while (true) ;]: the machine it returns is
    the one that spins until the watchdog resets the micro. *)
Definition WatchdogInterruptHandler (puProgramAddress : nat -> byte) : M unit :=
  Header <- LoadHeader ;;
  this <- gets ApplicationMonitor ;;
  set_CrashReport {| m_auAddress := memcpy_pc puProgramAddress;
                     m_uData := m_uData (m_CrashReport this) |} ;;;
  SaveCurrentReport (m_uNextReport Header) ;;;
  let Header :=
    mkHeader (m_uSavedReports Header) (to_uint8 (m_uNextReport Header + 1)) in
  let Header :=
    if m_uNextReport Header >=? c_nMaxEntries this
    then mkHeader (m_uSavedReports Header) 0
    else mkHeader (to_uint8 (m_uSavedReports Header + 1)) (m_uNextReport Header) in
  SaveHeader Header ;;;
  wdt_enable WDTO_120MS.

(** [appMon_asm_gate] and the naked [ISR(WDT_vect)]: [upStack] is the stack
    pointer plus one, where the hardware pushed the program counter; [ram]
    is the data memory. *)
Definition appMon_asm_gate (ram : Z -> byte) (upStack : Z) : M unit :=
  WatchdogInterruptHandler (fun k => ram (to_uint (upStack + Z.of_nat k))).

Definition WDT_vect (ram : Z -> byte) (SP : Z) : M unit :=
  let upStack := to_uint SP in
  let upStack := to_uint (upStack + 1) in
  appMon_asm_gate ram upStack.

Definition PrintValue (rDestination : list print_call) (pLabel : string)
  (uValue : Z) (uRadix : radix) (bNewLine : bool) : list print_call :=
  let rDestination := rDestination ++ [print_F pLabel] in
  let rDestination := rDestination ++ [print_value uValue uRadix] in
  if bNewLine then rDestination ++ [println_nl] else rDestination.

(** One iteration of the loop of [Dump]. *)
Definition Dump_report (rDestination : list print_call) (uReport : Z)
  : M (list print_call) :=
  Report <- LoadReport uReport ;;
  let rDestination := rDestination ++ [print_uint8 uReport] in
  let uAddress :=
    le_combine (firstn (PROGRAM_COUNTER_SIZE mcu) (m_auAddress Report)) in
  let rDestination :=
    PrintValue rDestination ": word-address=0x" uAddress HEX false in
  let rDestination :=
    PrintValue rDestination ": byte-address=0x" (to_uint32 (uAddress * 2)) HEX false in
  ret (PrintValue rDestination ", data=0x" (m_uData Report) HEX true).

(** [for (uReport = 0; uReport < Header.m_uSavedReports; ++uReport)], with
    the [uint8_t] counter; [fuel] bounds the number of iterations. *)
Fixpoint Dump_loop (fuel : nat) (uSavedReports uReport : Z)
  (rDestination : list print_call) : M (list print_call) :=
  match fuel with
  | O => ret rDestination
  | S fuel' =>
      if uReport <? uSavedReports
      then rDestination <- Dump_report rDestination uReport ;;
           Dump_loop fuel' uSavedReports (to_uint8 (uReport + 1)) rDestination
      else ret rDestination
  end.

Definition Dump (rDestination : list print_call) (bOnlyIfPresent : bool)
  : M (list print_call) :=
  Header <- LoadHeader ;;
  if negb bOnlyIfPresent || negb (m_uSavedReports Header =? 0)
  then
    let rDestination := rDestination ++ [println_F "Application Monitor"] in
    let rDestination := rDestination ++ [println_F "-------------------"] in
    let rDestination :=
      PrintValue rDestination "Saved reports: " (m_uSavedReports Header) DEC true in
    let rDestination :=
      PrintValue rDestination "Next report: " (m_uNextReport Header) DEC true in
    Dump_loop 256 (m_uSavedReports Header) 0 rDestination
  else ret rDestination.

End Monitor.

(** ** Specification-level counterparts of the block transfers *)

(** The EEPROM addresses [ReadBlock] and [WriteBlock] visit. *)
Definition block_addr (nBaseAddress : Z) (k : nat) : Z :=
  to_uint (nBaseAddress + Z.of_nat k).

(** The cells after a block write. *)
Fixpoint store_block (ee : Z -> byte) (a : Z) (data : list byte) (n : nat)
  : Z -> byte :=
  match n with
  | O => ee
  | S n' => store_block (upd ee (to_uint a) (hd Byte.x00 data))
                        (to_int (a + 1)) (tl data) n'
  end.

Fixpoint write_events (a : Z) (data : list byte) (n : nat) : list access :=
  match n with
  | O => []
  | S n' => EeWrite (to_uint a) (hd Byte.x00 data)
            :: write_events (to_int (a + 1)) (tl data) n'
  end.

Fixpoint read_events (a : Z) (n : nat) : list access :=
  match n with
  | O => []
  | S n' => EeRead (to_uint a) :: read_events (to_int (a + 1)) n'
  end.

Fixpoint load_block (ee : Z -> byte) (a : Z) (n : nat) : list byte :=
  match n with
  | O => []
  | S n' => ee (to_uint a) :: load_block ee (to_int (a + 1)) n'
  end.

Definition is_write (e : access) : bool :=
  match e with
  | EeWrite _ _ => true
  | EeRead _ => false
  end.

Definition access_addr (e : access) : Z :=
  match e with
  | EeWrite p _ => p
  | EeRead p => p
  end.

(** ** Observations used in the statements *)

(** An EEPROM that was never written: every cell reads [0xff]. *)
Definition erased : Z -> byte := fun _ => Byte.xff.

(** The two header bytes as stored, before [LoadHeader] validates them. *)
Definition raw_header (m : machine) : CApplicationMonitorHeader :=
  let base := c_nBaseAddress (ApplicationMonitor m) in
  mkHeader (byte.unsigned (eeprom m (to_uint base)))
           (byte.unsigned (eeprom m (to_uint (base + 1)))).

(** Membership of an EEPROM address in the log region
    [[base, base + sizeof(Header) + maxEntries * sizeof(Report))], counted
    from the base address in the 16-bit address space. *)
Definition in_log_region (mcu : target) (this : CApplicationMonitor) (p : Z)
  : Prop :=
  to_uint (p - c_nBaseAddress this)
  < Z.of_nat sizeof_Header
    + c_nMaxEntries this * Z.of_nat (sizeof_Report mcu).

(** The same region as a plain interval of addresses. *)
Definition in_log_interval (mcu : target) (this : CApplicationMonitor) (p : Z)
  : Prop :=
  c_nBaseAddress this <= p
  < c_nBaseAddress this + Z.of_nat sizeof_Header
    + c_nMaxEntries this * Z.of_nat (sizeof_Report mcu).

(** One crash: the program has set its diagnostic word, then hangs and the
    watchdog interrupt finds the given bytes on the stack. *)
Definition crash (mcu : target) (t : (nat -> byte) * Z) : M unit :=
  SetData (snd t) ;;; WatchdogInterruptHandler mcu (fst t).

Fixpoint crashes (mcu : target) (ts : list ((nat -> byte) * Z)) : M unit :=
  match ts with
  | [] => ret tt
  | t :: ts' => crash mcu t ;;; crashes mcu ts'
  end.

(** The header the handler saves, from the validated header it loaded. *)
Definition trap_header (nMaxEntries : Z) (h : CApplicationMonitorHeader)
  : CApplicationMonitorHeader :=
  let n := to_uint8 (m_uNextReport h + 1) in
  if n >=? nMaxEntries
  then mkHeader (m_uSavedReports h) 0
  else mkHeader (to_uint8 (m_uSavedReports h + 1)) n.

(** The stored header after [k] crashes, from the stored header [h]. *)
Definition header_after (nMaxEntries : Z) (k : nat)
  (h : CApplicationMonitorHeader) : CApplicationMonitorHeader :=
  Nat.iter k (fun h => trap_header nMaxEntries (LoadHeader_validate nMaxEntries h)) h.

(** What [Dump] prints before the reports, and for one report. *)
Definition banner_calls (h : CApplicationMonitorHeader) : list print_call :=
  [println_F "Application Monitor"; println_F "-------------------";
   print_F "Saved reports: "; print_value (m_uSavedReports h) DEC; println_nl;
   print_F "Next report: "; print_value (m_uNextReport h) DEC; println_nl].

Definition report_calls (uReport : Z) (r : CCrashReport) : list print_call :=
  [print_uint8 uReport;
   print_F ": word-address=0x"; print_value (le_combine (m_auAddress r)) HEX;
   print_F ": byte-address=0x";
   print_value (to_uint32 (le_combine (m_auAddress r) * 2)) HEX;
   print_F ", data=0x"; print_value (m_uData r) HEX; println_nl].

(** The slot numbers printed on a destination. *)
Definition printed_slots (out : list print_call) : list Z :=
  flat_map (fun c => match c with print_uint8 v => [v] | _ => [] end) out.

(** A stack holding the given bytes, lowest address first. *)
Definition stack_of (bs : list byte) : nat -> byte :=
  fun k => nth k bs Byte.x00.

(** The report [LoadReport] is expected to return for a crash: the program
    counter bytes found on the stack with their ends exchanged, and the
    diagnostic word. *)
Definition crash_report (mcu : target) (t : (nat -> byte) * Z) : CCrashReport :=
  {| m_auAddress := swap_ends (PROGRAM_COUNTER_SIZE mcu) (memcpy_pc mcu (fst t));
     m_uData := to_uint32 (snd t) |}.

(** The program counter pushed on the stack, most significant byte at the
    lowest address. *)
Definition pushed_pc (mcu : target) (stack : nat -> byte) : Z :=
  match mcu with
  | ATmega2560 =>
      65536 * byte.unsigned (stack 0%nat) + 256 * byte.unsigned (stack 1%nat)
      + byte.unsigned (stack 2%nat)
  | OtherAVR =>
      256 * byte.unsigned (stack 0%nat) + byte.unsigned (stack 1%nat)
  end.

(** The EEPROM reads of [Dump]: the header, then the slots below [n]. *)
Definition dump_reads (mcu : target) (m : machine) (n : nat) : list access :=
  read_events (c_nBaseAddress (ApplicationMonitor m)) sizeof_Header
  ++ flat_map (fun k => read_events
                          (eval (GetAddressForReport mcu (Z.of_nat k)) m)
                          (sizeof_Report mcu))
              (seq 0 n).

(** ** Machine arithmetic *)

Ltac zwrap :=
  unfold block_addr, to_uint, to_int, to_uint8, to_uint32 in *;
  change (2 ^ 16) with 65536 in *; change (2 ^ 15) with 32768 in *;
  change (2 ^ 8) with 256 in *; change (2 ^ 32) with 4294967296 in *.

Ltac zsolve := zwrap; Z.div_mod_to_equations; lia.

Lemma to_uint_range z : 0 <= to_uint z < 65536.
Proof. zsolve. Qed.

Lemma to_int_range z : -32768 <= to_int z < 32768.
Proof. zsolve. Qed.

Lemma to_uint_to_int z : to_uint (to_int z) = to_uint z.
Proof. zsolve. Qed.

Lemma to_uint_small z : 0 <= z < 65536 -> to_uint z = z.
Proof. intros; zsolve. Qed.

Lemma to_int_small z : -32768 <= z < 32768 -> to_int z = z.
Proof. intros; zsolve. Qed.

Lemma to_uint8_small z : 0 <= z < 256 -> to_uint8 z = z.
Proof. intros; zsolve. Qed.

Lemma to_uint_succ a k :
  to_uint (to_int (a + 1) + k) = to_uint (a + (k + 1)).
Proof. zsolve. Qed.

Lemma block_addr_step a k :
  block_addr (to_int (a + 1)) k = block_addr a (S k).
Proof.
  unfold block_addr. rewrite Nat2Z.inj_succ, to_uint_succ. reflexivity.
Qed.

Lemma block_addr_0 a : block_addr a 0 = to_uint a.
Proof. unfold block_addr. simpl. now rewrite Z.add_0_r. Qed.

(** Two offsets less than [2^16] apart name different cells. *)
Lemma block_addr_inj a (j k : nat) :
  Z.of_nat j < 65536 -> Z.of_nat k < 65536 ->
  block_addr a j = block_addr a k -> j = k.
Proof. intros Hj Hk H. zsolve. Qed.

Lemma byte_unsigned_of_Z z : byte.unsigned (byte.of_Z z) = to_uint8 z.
Proof. apply byte.unsigned_of_Z. Qed.

Lemma byte_unsigned_range b : 0 <= byte.unsigned b < 256.
Proof. apply byte.unsigned_range. Qed.

(** ** Block transfers *)

Section Blocks.

Lemma ReadBlock_eq n : forall a m,
  ReadBlock a n m =
  (load_block (eeprom m) a n,
   mkMachine (ApplicationMonitor m) (eeprom m)
             (trace m ++ read_events a n) (wdt m) (wdie m)).
Proof.
  induction n as [|n IH]; intros a m; simpl.
  - destruct m; unfold ret; simpl. now rewrite app_nil_r.
  - unfold bind, eeprom_read_byte. rewrite IH. simpl.
    unfold ret. now rewrite <- app_assoc.
Qed.

Lemma WriteBlock_eq n : forall a data m,
  WriteBlock a data n m =
  (tt,
   mkMachine (ApplicationMonitor m) (store_block (eeprom m) a data n)
             (trace m ++ write_events a data n) (wdt m) (wdie m)).
Proof.
  induction n as [|n IH]; intros a data m; simpl.
  - destruct m; unfold ret; simpl. now rewrite app_nil_r.
  - unfold bind, eeprom_write_byte. rewrite IH. simpl.
    now rewrite <- app_assoc.
Qed.

Lemma length_load_block ee n : forall a, List.length (load_block ee a n) = n.
Proof. induction n; intros; simpl; auto. Qed.

Lemma nth_load_block ee n : forall a k d,
  (k < n)%nat -> nth k (load_block ee a n) d = ee (block_addr a k).
Proof.
  induction n as [|n IH]; intros a k d Hk; [lia|].
  destruct k as [|k]; simpl.
  - now rewrite block_addr_0.
  - rewrite IH by lia. now rewrite block_addr_step.
Qed.

Lemma store_block_other n : forall ee a data q,
  (forall k, (k < n)%nat -> block_addr a k <> q) ->
  store_block ee a data n q = ee q.
Proof.
  induction n as [|n IH]; intros ee a data q Hq; simpl; auto.
  rewrite IH.
  - unfold upd. destruct (Z.eqb_spec q (to_uint a)) as [E|]; auto.
    exfalso. apply (Hq 0%nat); [lia|]. now rewrite block_addr_0.
  - intros k Hk. rewrite block_addr_step. apply Hq. lia.
Qed.

Lemma store_block_same n : forall ee a data k,
  Z.of_nat n <= 65536 -> (k < n)%nat ->
  store_block ee a data n (block_addr a k) = nth k data Byte.x00.
Proof.
  induction n as [|n IH]; intros ee a data k Hn Hk; [lia|].
  destruct k as [|k]; simpl.
  - rewrite store_block_other.
    + unfold upd. rewrite block_addr_0, Z.eqb_refl. destruct data; reflexivity.
    + intros j Hj. rewrite block_addr_step. intros E.
      apply block_addr_inj in E; lia.
  - rewrite <- block_addr_step, IH by lia. destruct data; simpl; auto.
    destruct k; reflexivity.
Qed.

(** Reading back a block that was just written returns what was written. *)
Lemma load_store_block n ee a data :
  Z.of_nat n <= 65536 -> List.length data = n ->
  load_block (store_block ee a data n) a n = data.
Proof.
  intros Hn Hlen.
  apply nth_ext with (d := Byte.x00) (d' := Byte.x00).
  - now rewrite length_load_block.
  - rewrite length_load_block. intros k Hk.
    rewrite nth_load_block by lia. now apply store_block_same.
Qed.

(** A block read elsewhere is not affected by a block write. *)
Lemma load_store_block_other n n' ee a a' data :
  (forall j k, (j < n)%nat -> (k < n')%nat -> block_addr a j <> block_addr a' k) ->
  load_block (store_block ee a data n) a' n' = load_block ee a' n'.
Proof.
  intros Hd.
  apply nth_ext with (d := Byte.x00) (d' := Byte.x00).
  - now rewrite !length_load_block.
  - rewrite length_load_block. intros k Hk.
    rewrite !nth_load_block by lia. apply store_block_other.
    intros j Hj. now apply Hd.
Qed.




End Blocks.

(** ** The methods, as state transformers *)

Section Methods.

Variable mcu : target.

Lemma sizeof_Report_cases :
  sizeof_Report mcu = 6%nat \/ sizeof_Report mcu = 7%nat.
Proof. destruct mcu; simpl; auto. Qed.

Lemma GetAddressForReport_eq i m :
  GetAddressForReport mcu i m = (eval (GetAddressForReport mcu i) m, m).
Proof. reflexivity. Qed.

Lemma load_block_header ee a :
  Header_of_bytes (load_block ee a sizeof_Header) =
  mkHeader (byte.unsigned (ee (to_uint a)))
           (byte.unsigned (ee (to_uint (a + 1)))).
Proof.
  unfold Header_of_bytes; simpl. now rewrite to_uint_to_int.
Qed.

Lemma LoadHeader_eq m :
  LoadHeader m =
  (LoadHeader_validate (c_nMaxEntries (ApplicationMonitor m)) (raw_header m),
   mkMachine (ApplicationMonitor m) (eeprom m)
     (trace m ++ read_events (c_nBaseAddress (ApplicationMonitor m)) sizeof_Header)
     (wdt m) (wdie m)).
Proof.
  unfold LoadHeader, bind, gets, ret. rewrite ReadBlock_eq.
  now rewrite load_block_header.
Qed.

Lemma SaveHeader_eq h m :
  SaveHeader h m =
  (tt,
   mkMachine (ApplicationMonitor m)
     (store_block (eeprom m) (c_nBaseAddress (ApplicationMonitor m))
                  (Header_bytes h) sizeof_Header)
     (trace m ++ write_events (c_nBaseAddress (ApplicationMonitor m))
                              (Header_bytes h) sizeof_Header)
     (wdt m) (wdie m)).
Proof. unfold SaveHeader, bind, gets. now rewrite WriteBlock_eq. Qed.

Lemma SaveCurrentReport_eq i m :
  SaveCurrentReport mcu i m =
  (tt,
   let a := eval (GetAddressForReport mcu i) m in
   let data := Report_bytes (m_CrashReport (ApplicationMonitor m)) in
   mkMachine (ApplicationMonitor m)
     (store_block (eeprom m) a data (sizeof_Report mcu))
     (trace m ++ write_events a data (sizeof_Report mcu))
     (wdt m) (wdie m)).
Proof.
  unfold SaveCurrentReport, bind, gets.
  rewrite GetAddressForReport_eq, WriteBlock_eq. reflexivity.
Qed.

Lemma LoadReport_eq i m :
  LoadReport mcu i m =
  (eval (LoadReport mcu i) m,
   mkMachine (ApplicationMonitor m) (eeprom m)
     (trace m ++ read_events (eval (GetAddressForReport mcu i) m)
                             (sizeof_Report mcu))
     (wdt m) (wdie m)).
Proof.
  unfold eval, LoadReport, bind, ret.
  rewrite GetAddressForReport_eq, ReadBlock_eq. reflexivity.
Qed.

(** What [LoadReport] returns depends on the monitor and the cells only. *)
Lemma LoadReport_value i m :
  eval (LoadReport mcu i) m =
  let raw := load_block (eeprom m) (eval (GetAddressForReport mcu i) m)
                        (sizeof_Report mcu) in
  {| m_auAddress :=
       swap_ends (PROGRAM_COUNTER_SIZE mcu)
                 (firstn (PROGRAM_COUNTER_SIZE mcu) raw);
     m_uData :=
       le_combine (firstn 4 (skipn (PROGRAM_COUNTER_SIZE mcu) raw)) |}.
Proof.
  unfold eval, LoadReport, bind, ret.
  rewrite GetAddressForReport_eq, ReadBlock_eq. reflexivity.
Qed.

Lemma LoadReport_ext i m m' :
  ApplicationMonitor m' = ApplicationMonitor m ->
  eeprom m' = eeprom m ->
  eval (LoadReport mcu i) m' = eval (LoadReport mcu i) m.
Proof.
  intros HA HE. rewrite !LoadReport_value. unfold eval, GetAddressForReport, bind, gets, ret.
  simpl. now rewrite HA, HE.
Qed.

End Methods.

(** ** Header validation *)

Lemma to_uint8_below (x y : Z) : 0 <= x -> x < y -> y < 256 -> to_uint8 x = x.
Proof. intros. apply to_uint8_small. lia. Qed.

Lemma validate_saved nMax h :
  m_uSavedReports (LoadHeader_validate nMax h) =
  if m_uSavedReports h =? 255 then 0
  else if m_uSavedReports h >? nMax then to_uint8 nMax
       else m_uSavedReports h.
Proof.
  unfold LoadHeader_validate.
  destruct (m_uSavedReports h =? 255); simpl.
  - now destruct (m_uNextReport h >=? nMax).
  - destruct (m_uSavedReports h >? nMax); simpl;
      now destruct (m_uNextReport h >=? nMax).
Qed.

Lemma validate_next nMax h :
  m_uNextReport (LoadHeader_validate nMax h) =
  if m_uNextReport h >=? nMax then 0 else m_uNextReport h.
Proof.
  unfold LoadHeader_validate.
  destruct (m_uSavedReports h =? 255); simpl.
  - now destruct (m_uNextReport h >=? nMax).
  - destruct (m_uSavedReports h >? nMax); simpl;
      now destruct (m_uNextReport h >=? nMax).
Qed.

Lemma header_eq (h h' : CApplicationMonitorHeader) :
  m_uSavedReports h = m_uSavedReports h' ->
  m_uNextReport h = m_uNextReport h' -> h = h'.
Proof. destruct h, h'; simpl; intros; now subst. Qed.

Lemma raw_header_range m :
  0 <= m_uSavedReports (raw_header m) < 256 /\
  0 <= m_uNextReport (raw_header m) < 256.
Proof. split; apply byte_unsigned_range. Qed.

(** With [c_nMaxEntries = -200] a stored count of 3 exceeds the capacity
    and is replaced by [(uint8_t)(-200) = 56], not by [-200]. *)
Lemma LoadHeader_clamp_negative_capacity :
  m_uSavedReports
    (raw_header (boot OtherAVR 500 (-200)
                      (upd (upd erased 500 Byte.x03) 501 Byte.x07))) = 3 /\
  3 <> 255 /\
  3 > c_nMaxEntries
        (ApplicationMonitor
           (boot OtherAVR 500 (-200)
                 (upd (upd erased 500 Byte.x03) 501 Byte.x07))) /\
  m_uSavedReports
    (eval LoadHeader (boot OtherAVR 500 (-200)
                           (upd (upd erased 500 Byte.x03) 501 Byte.x07))) = 56 /\
  m_uSavedReports
    (eval LoadHeader (boot OtherAVR 500 (-200)
                           (upd (upd erased 500 Byte.x03) 501 Byte.x07)))
  <> c_nMaxEntries
       (ApplicationMonitor
          (boot OtherAVR 500 (-200)
                (upd (upd erased 500 Byte.x03) 501 Byte.x07))).
Proof. vm_compute. repeat split; congruence. Qed.

(** C3. [LoadHeader] returns the two stored header bytes validated as
    follows: a saved-report count of [0xff] becomes 0; otherwise a count
    above [c_nMaxEntries] becomes [c_nMaxEntries] (converted to [uint8_t],
    which is [c_nMaxEntries] itself whenever that is not negative); a next
    index at or above [c_nMaxEntries] becomes 0; any other value is kept. *)
Theorem LoadHeader_sanitation (m : machine) :
  let nMax := c_nMaxEntries (ApplicationMonitor m) in
  let raw := raw_header m in
  let h := eval LoadHeader m in
  (m_uSavedReports raw = 255 -> m_uSavedReports h = 0) /\
  (m_uSavedReports raw <> 255 -> m_uSavedReports raw > nMax ->
   m_uSavedReports h = to_uint8 nMax /\
   (0 <= nMax -> m_uSavedReports h = nMax)) /\
  (m_uSavedReports raw <> 255 -> m_uSavedReports raw <= nMax ->
   m_uSavedReports h = m_uSavedReports raw) /\
  (m_uNextReport raw >= nMax -> m_uNextReport h = 0) /\
  (m_uNextReport raw < nMax -> m_uNextReport h = m_uNextReport raw).
Proof.
  intros nMax raw h. subst h. unfold eval. rewrite LoadHeader_eq.
  cbn [fst]. fold nMax raw. rewrite validate_saved, validate_next.
  destruct (raw_header_range m) as [Hs _]. fold raw in Hs.
  destruct (Z.eqb_spec (m_uSavedReports raw) 255);
    destruct (Z.gtb_spec (m_uSavedReports raw) nMax);
    destruct (Z.geb_spec (m_uNextReport raw) nMax);
    repeat split; intros; try lia;
    apply to_uint8_below with (y := m_uSavedReports raw); lia.
Qed.

(** On an erased EEPROM the header validates to [(0, 0)]; a stored header
    [(12, 12)] with ten slots validates to [(10, 0)]; a stored header
    [(3, 4)] is kept. *)
Lemma LoadHeader_sanitation_examples :
  m_uSavedReports (eval LoadHeader (boot OtherAVR 500 10 erased)) = 0 /\
  m_uSavedReports
    (eval LoadHeader
       (boot OtherAVR 500 10 (upd (upd erased 500 Byte.x0c) 501 Byte.x0c)))
  = 10 /\
  m_uNextReport
    (eval LoadHeader
       (boot OtherAVR 500 10 (upd (upd erased 500 Byte.x0c) 501 Byte.x0c)))
  = 0 /\
  m_uSavedReports
    (eval LoadHeader
       (boot OtherAVR 500 10 (upd (upd erased 500 Byte.x03) 501 Byte.x04)))
  = 3 /\
  m_uNextReport
    (eval LoadHeader
       (boot OtherAVR 500 10 (upd (upd erased 500 Byte.x03) 501 Byte.x04)))
  = 4.
Proof.
  split; [|split; [|split; [|split]]].
  - apply (proj1 (LoadHeader_sanitation (boot OtherAVR 500 10 erased))).
    reflexivity.
  - apply (proj1 (proj2 (LoadHeader_sanitation
             (boot OtherAVR 500 10 (upd (upd erased 500 Byte.x0c) 501 Byte.x0c)))));
      vm_compute; congruence.
  - apply (proj1 (proj2 (proj2 (proj2 (LoadHeader_sanitation
             (boot OtherAVR 500 10 (upd (upd erased 500 Byte.x0c) 501 Byte.x0c)))))));
      vm_compute; congruence.
  - apply (proj1 (proj2 (proj2 (LoadHeader_sanitation
             (boot OtherAVR 500 10 (upd (upd erased 500 Byte.x03) 501 Byte.x04))))));
      vm_compute; congruence.
  - apply (proj2 (proj2 (proj2 (proj2 (LoadHeader_sanitation
             (boot OtherAVR 500 10 (upd (upd erased 500 Byte.x03) 501 Byte.x04)))))));
      vm_compute; congruence.
Defined.

(** A negative capacity breaks idempotence: with [c_nMaxEntries = -1] the
    erased header validates to a count of 0, and validating that again
    stores [(uint8_t)(-1) = 0xff]. *)
Lemma validate_twice_negative_capacity :
  LoadHeader_validate (-1) (Header_of_bytes [Byte.xff; Byte.xff])
  = mkHeader 0 0 /\
  LoadHeader_validate (-1)
    (LoadHeader_validate (-1) (Header_of_bytes [Byte.xff; Byte.xff]))
  = mkHeader 255 0 /\
  LoadHeader_validate (-1)
    (LoadHeader_validate (-1) (Header_of_bytes [Byte.xff; Byte.xff]))
  <> LoadHeader_validate (-1) (Header_of_bytes [Byte.xff; Byte.xff]).
Proof. vm_compute. repeat split; congruence. Qed.

(** C4. For a capacity that is not negative, validating a stored header
    twice gives the same header as validating it once. *)
Theorem validate_idempotent (nMaxEntries : Z) (bs : list byte) :
  0 <= nMaxEntries ->
  let h := Header_of_bytes bs in
  LoadHeader_validate nMaxEntries (LoadHeader_validate nMaxEntries h)
  = LoadHeader_validate nMaxEntries h.
Proof.
  intros Hmax h.
  assert (Hs : 0 <= m_uSavedReports h < 256) by apply byte_unsigned_range.
  assert (Hn : 0 <= m_uNextReport h < 256) by apply byte_unsigned_range.
  apply header_eq; rewrite ?validate_saved, ?validate_next.
  - destruct (Z.eqb_spec (m_uSavedReports h) 255) as [E|E].
    { change (0 =? 255) with false. cbv iota.
      destruct (Z.gtb_spec 0 nMaxEntries); [lia|reflexivity]. }
    destruct (Z.gtb_spec (m_uSavedReports h) nMaxEntries) as [G|G].
    + rewrite (to_uint8_below nMaxEntries (m_uSavedReports h)) by lia.
      destruct (Z.eqb_spec nMaxEntries 255); [lia|].
      destruct (Z.gtb_spec nMaxEntries nMaxEntries); [lia|reflexivity].
    + destruct (Z.eqb_spec (m_uSavedReports h) 255); [lia|].
      destruct (Z.gtb_spec (m_uSavedReports h) nMaxEntries); [lia|reflexivity].
  - destruct (Z.geb_spec (m_uNextReport h) nMaxEntries) as [G|G].
    + destruct (0 >=? nMaxEntries); reflexivity.
    + destruct (Z.geb_spec (m_uNextReport h) nMaxEntries); [lia|reflexivity].
Qed.

Lemma validate_idempotent_default :
  let h := Header_of_bytes [Byte.xff; Byte.x0c] in
  LoadHeader_validate DEFAULT_ENTRIES (LoadHeader_validate DEFAULT_ENTRIES h)
  = LoadHeader_validate DEFAULT_ENTRIES h.
Proof.
  apply (validate_idempotent DEFAULT_ENTRIES [Byte.xff; Byte.x0c]).
  unfold DEFAULT_ENTRIES. lia.
Defined.

(** ** Slot addresses *)

Section Layout.

Variable mcu : target.

Lemma GetAddressForReport_value m i :
  eval (GetAddressForReport mcu i) m =
  let this := ApplicationMonitor m in
  if i <? c_nMaxEntries this
  then to_int (c_nBaseAddress this + Z.of_nat sizeof_Header
               + i * Z.of_nat (sizeof_Report mcu))
  else to_int (c_nBaseAddress this + Z.of_nat sizeof_Header).
Proof.
  unfold eval, GetAddressForReport, bind, gets, ret. cbn [fst].
  cbv zeta. destruct (i <? c_nMaxEntries (ApplicationMonitor m)).
  - destruct sizeof_Report_cases with (mcu := mcu) as [-> | ->];
      unfold sizeof_Header; zsolve.
  - unfold sizeof_Header; zsolve.
Qed.

(** The cells of a slot, for an index below 256, lie at offsets
    [2 .. 2 + 256 * 7) from the base address. *)
Lemma slot_cell_offset m i (k : nat) :
  0 <= i < 256 -> (k < sizeof_Report mcu)%nat ->
  exists o,
    block_addr (eval (GetAddressForReport mcu i) m) k
    = to_uint (c_nBaseAddress (ApplicationMonitor m) + o) /\
    2 <= o < 2 + (i + 1) * Z.of_nat (sizeof_Report mcu) /\
    (i < c_nMaxEntries (ApplicationMonitor m) ->
     2 + i * Z.of_nat (sizeof_Report mcu) <= o).
Proof.
  intros Hi Hk. rewrite GetAddressForReport_value. cbv zeta.
  destruct (Z.ltb_spec i (c_nMaxEntries (ApplicationMonitor m))).
  - exists (2 + i * Z.of_nat (sizeof_Report mcu) + Z.of_nat k).
    split; [|lia].
    destruct sizeof_Report_cases with (mcu := mcu) as [E | E];
      rewrite E in *; unfold sizeof_Header; zsolve.
  - exists (2 + Z.of_nat k). split; [|nia].
    unfold sizeof_Header; zsolve.
Qed.

End Layout.

(** With a capacity of 21846 slots of 6 bytes the 16-bit address
    arithmetic wraps: slot 21845 is computed at address 500, the address of
    the header itself, below slot 0. *)
Lemma GetAddressForReport_wraps :
  0 < c_nMaxEntries (ApplicationMonitor (boot OtherAVR 500 21846 erased)) /\
  0 <= 21845 < c_nMaxEntries (ApplicationMonitor (boot OtherAVR 500 21846 erased)) /\
  eval (GetAddressForReport OtherAVR 21845) (boot OtherAVR 500 21846 erased)
  <> 500 + Z.of_nat sizeof_Header + 21845 * Z.of_nat (sizeof_Report OtherAVR) /\
  eval (GetAddressForReport OtherAVR 21845) (boot OtherAVR 500 21846 erased)
  = c_nBaseAddress (ApplicationMonitor (boot OtherAVR 500 21846 erased)) /\
  ~ (eval (GetAddressForReport OtherAVR 0) (boot OtherAVR 500 21846 erased)
     < eval (GetAddressForReport OtherAVR 21845) (boot OtherAVR 500 21846 erased)).
Proof. vm_compute. repeat split; congruence. Qed.

(** C5. When the log region fits in the range of [int], the address of
    slot [i], [0 <= i < c_nMaxEntries], is
    [base + sizeof(Header) + i * sizeof(Report)]; it is strictly increasing
    in [i], the slot lies above the header and inside the region, and none
    of its cells is a header cell. *)
Theorem GetAddressForReport_layout (mcu : target) (m : machine) (i : Z) :
  let this := ApplicationMonitor m in
  let base := c_nBaseAddress this in
  let hdr := Z.of_nat sizeof_Header in
  let rep := Z.of_nat (sizeof_Report mcu) in
  let slot := fun n => eval (GetAddressForReport mcu n) m in
  0 < c_nMaxEntries this ->
  -32768 <= base ->
  base + hdr + c_nMaxEntries this * rep <= 32768 ->
  0 <= i < c_nMaxEntries this ->
  slot i = base + hdr + i * rep /\
  (forall j, 0 <= j < i -> slot j + rep <= slot i) /\
  base + hdr <= slot i /\
  slot i + rep <= base + hdr + c_nMaxEntries this * rep /\
  (forall j k : nat, (j < sizeof_Report mcu)%nat -> (k < sizeof_Header)%nat ->
     block_addr (slot i) j <> block_addr base k).
Proof.
  intros this base hdr rep slot Hmax Hlo Hhi Hi.
  assert (Hrep : rep = 6 \/ rep = 7)
    by (subst rep; destruct sizeof_Report_cases with (mcu := mcu) as [-> | ->];
        auto).
  assert (Hslot : forall n, 0 <= n < c_nMaxEntries this ->
                            slot n = base + hdr + n * rep).
  { intros n Hn. subst slot. cbv beta. rewrite GetAddressForReport_value.
    cbv zeta. fold this base hdr rep.
    destruct (Z.ltb_spec n (c_nMaxEntries this)); [|lia].
    apply to_int_small. subst hdr. unfold sizeof_Header in *. simpl in *. nia. }
  split; [now apply Hslot|].
  split; [intros j Hj; rewrite !Hslot by lia; nia|].
  split; [rewrite Hslot by lia; nia|].
  split; [rewrite Hslot by lia; nia|].
  intros j k Hj Hk. rewrite Hslot by lia.
  subst hdr. unfold sizeof_Header in *. fold rep in Hj.
  assert (base + 2 + i * rep + rep <= 32768) by (simpl in *; nia).
  assert (0 <= i * rep) by nia.
  simpl in *. zwrap. Z.div_mod_to_equations. nia.
Qed.

Lemma GetAddressForReport_layout_default :
  eval (GetAddressForReport ATmega2560 9) (boot ATmega2560 500 10 erased)
  = 500 + 2 + 9 * 7.
Proof.
  apply (GetAddressForReport_layout ATmega2560 (boot ATmega2560 500 10 erased) 9);
    simpl; lia.
Defined.

(** With no slot configured, index 0 is out of range and its address 502
    is outside the log region, which is the header [[500, 502)] alone; and
    with base address 32767 the result is [-32767], not [32769]. *)
Lemma GetAddressForReport_out_of_range_fails :
  c_nMaxEntries (ApplicationMonitor (boot OtherAVR 500 0 erased)) <= 0 /\
  eval (GetAddressForReport OtherAVR 0) (boot OtherAVR 500 0 erased) = 502 /\
  ~ in_log_region OtherAVR (ApplicationMonitor (boot OtherAVR 500 0 erased))
      (block_addr
         (eval (GetAddressForReport OtherAVR 0) (boot OtherAVR 500 0 erased)) 0) /\
  ~ in_log_interval OtherAVR (ApplicationMonitor (boot OtherAVR 500 0 erased))
      (block_addr
         (eval (GetAddressForReport OtherAVR 0) (boot OtherAVR 500 0 erased)) 0) /\
  c_nMaxEntries (ApplicationMonitor (boot OtherAVR 32767 10 erased)) <= 10 /\
  eval (GetAddressForReport OtherAVR 10) (boot OtherAVR 32767 10 erased)
  = -32767 /\
  eval (GetAddressForReport OtherAVR 10) (boot OtherAVR 32767 10 erased)
  <> 32767 + Z.of_nat sizeof_Header.
Proof.
  unfold in_log_region, in_log_interval. vm_compute.
  repeat split; try congruence; intros H; try destruct H; congruence.
Qed.

(** C10. For a slot index at or above [c_nMaxEntries] the offset is not
    added: the address is [base + sizeof(Header)] (as an [int]; as an EEPROM
    pointer it is that very number for every base address that is not
    negative), the address computed for slot 0, and with at least one slot
    configured its cells are inside the log region. *)
Theorem GetAddressForReport_out_of_range (mcu : target) (m : machine) (i : Z) :
  let this := ApplicationMonitor m in
  let base := c_nBaseAddress this in
  c_nMaxEntries this <= i ->
  eval (GetAddressForReport mcu i) m = to_int (base + Z.of_nat sizeof_Header) /\
  (-32768 <= base <= 32765 ->
   eval (GetAddressForReport mcu i) m = base + Z.of_nat sizeof_Header) /\
  (0 <= base <= 32767 ->
   to_uint (eval (GetAddressForReport mcu i) m) = base + Z.of_nat sizeof_Header) /\
  eval (GetAddressForReport mcu i) m = eval (GetAddressForReport mcu 0) m /\
  (1 <= c_nMaxEntries this ->
   forall k : nat, (k < sizeof_Report mcu)%nat ->
     in_log_region mcu this (block_addr (eval (GetAddressForReport mcu i) m) k)).
Proof.
  intros this base Hi.
  assert (E : eval (GetAddressForReport mcu i) m
              = to_int (base + Z.of_nat sizeof_Header)).
  { rewrite GetAddressForReport_value. cbv zeta. fold this base.
    destruct (Z.ltb_spec i (c_nMaxEntries this)); [lia|reflexivity]. }
  split; [exact E|].
  split; [intros Hb; rewrite E; apply to_int_small; unfold sizeof_Header; simpl; lia|].
  split; [intros Hb; rewrite E, to_uint_to_int; apply to_uint_small;
          unfold sizeof_Header; simpl; lia|].
  split.
  - rewrite E, GetAddressForReport_value. cbv zeta. fold this base.
    destruct (0 <? c_nMaxEntries this); [|reflexivity].
    f_equal. lia.
  - intros Hmax k Hk. rewrite E. unfold in_log_region. fold this base.
    assert (Hrep : Z.of_nat k < Z.of_nat (sizeof_Report mcu)) by lia.
    assert (to_uint (block_addr (to_int (base + Z.of_nat sizeof_Header)) k - base)
            = 2 + Z.of_nat k).
    { destruct sizeof_Report_cases with (mcu := mcu) as [E' | E'];
        rewrite E' in *; unfold sizeof_Header; zsolve. }
    unfold sizeof_Header at 2. simpl Z.of_nat at 2. nia.
Qed.

Lemma GetAddressForReport_out_of_range_default :
  eval (GetAddressForReport OtherAVR 10) (boot OtherAVR 500 10 erased) = 502.
Proof.
  apply (GetAddressForReport_out_of_range OtherAVR (boot OtherAVR 500 10 erased) 10).
  simpl. lia.
Defined.

(** ** The diagnostic word *)

(** C8. Right after construction the diagnostic word is 0 and the EEPROM
    has not been accessed; [SetData v] followed by [GetData] returns [v] for
    every 32-bit [v], and neither accesses or changes the EEPROM. *)
Theorem diagnostic_word (mcu : target) (nBaseAddress nMaxEntries : Z)
  (ee : Z -> byte) :
  eval GetData (boot mcu nBaseAddress nMaxEntries ee) = 0 /\
  trace (boot mcu nBaseAddress nMaxEntries ee) = [] /\
  eeprom (boot mcu nBaseAddress nMaxEntries ee) = ee /\
  forall (m : machine) (v : Z),
    0 <= v < 2 ^ 32 ->
    eval GetData (exec (SetData v) m) = v /\
    trace (exec (SetData v) m) = trace m /\
    eeprom (exec (SetData v) m) = eeprom m /\
    exec GetData (exec (SetData v) m) = exec (SetData v) m.
Proof.
  repeat split.
  unfold eval, exec, GetData, SetData, set_CrashReport, bind, gets, ret.
  cbn. now apply Z.mod_small.
Qed.

Lemma diagnostic_word_default :
  eval GetData (exec (SetData 3405691582) (boot OtherAVR 500 10 erased))
  = 3405691582.
Proof.
  apply (diagnostic_word OtherAVR 500 10 erased). lia.
Defined.

(** ** Writing a report and reading it back *)

Section RoundTrip.

Variable mcu : target.

Lemma length_Report_bytes r :
  List.length (m_auAddress r) = PROGRAM_COUNTER_SIZE mcu ->
  List.length (Report_bytes r) = sizeof_Report mcu.
Proof.
  intros H. unfold Report_bytes, sizeof_Report.
  now rewrite length_app, length_le_split, H.
Qed.

Lemma firstn_Report_bytes r :
  List.length (m_auAddress r) = PROGRAM_COUNTER_SIZE mcu ->
  firstn (PROGRAM_COUNTER_SIZE mcu) (Report_bytes r) = m_auAddress r.
Proof.
  intros H. unfold Report_bytes.
  rewrite <- H, firstn_app, Nat.sub_diag, firstn_all. cbn [firstn].
  now rewrite app_nil_r.
Qed.

Lemma data_Report_bytes r :
  List.length (m_auAddress r) = PROGRAM_COUNTER_SIZE mcu ->
  le_combine (firstn 4 (skipn (PROGRAM_COUNTER_SIZE mcu) (Report_bytes r)))
  = to_uint32 (m_uData r).
Proof.
  intros H. unfold Report_bytes.
  rewrite <- H, skipn_app, Nat.sub_diag, skipn_all. cbn [skipn app].
  change (firstn 4 (le_split 4 (m_uData r))) with (le_split 4 (m_uData r)).
  rewrite le_combine_split. reflexivity.
Qed.

Lemma Report_of_bytes_bytes r :
  List.length (m_auAddress r) = PROGRAM_COUNTER_SIZE mcu ->
  Report_of_bytes mcu (Report_bytes r)
  = {| m_auAddress := m_auAddress r; m_uData := to_uint32 (m_uData r) |}.
Proof.
  intros H. unfold Report_of_bytes.
  now rewrite firstn_Report_bytes, data_Report_bytes.
Qed.

Lemma swap_ends_rev (a : list byte) :
  List.length a = PROGRAM_COUNTER_SIZE mcu ->
  swap_ends (PROGRAM_COUNTER_SIZE mcu) a = rev a.
Proof.
  destruct mcu; simpl; intros H.
  - destruct a as [|x [|y [|z [|]]]]; try discriminate. reflexivity.
  - destruct a as [|x [|y [|]]]; try discriminate. reflexivity.
Qed.

(** The report found in a slot right after [SaveCurrentReport] wrote it. *)
Lemma LoadReport_SaveCurrentReport m i :
  List.length (m_auAddress (m_CrashReport (ApplicationMonitor m)))
  = PROGRAM_COUNTER_SIZE mcu ->
  eval (LoadReport mcu i) (exec (SaveCurrentReport mcu i) m)
  = {| m_auAddress :=
         swap_ends (PROGRAM_COUNTER_SIZE mcu)
                   (m_auAddress (m_CrashReport (ApplicationMonitor m)));
       m_uData := to_uint32 (m_uData (m_CrashReport (ApplicationMonitor m))) |}.
Proof.
  intros Hlen. unfold exec. rewrite SaveCurrentReport_eq. cbn [snd].
  unfold eval at 1, LoadReport, bind, ret.
  rewrite GetAddressForReport_eq, ReadBlock_eq. cbn [fst eeprom].
  change (eval (GetAddressForReport mcu i) _)
    with (eval (GetAddressForReport mcu i) m).
  rewrite load_store_block.
  - now rewrite Report_of_bytes_bytes.
  - destruct sizeof_Report_cases with (mcu := mcu) as [-> | ->]; simpl; lia.
  - now apply length_Report_bytes.
Qed.

End RoundTrip.

(** C2. A report written to a slot by [SaveCurrentReport] and read back by
    [LoadReport] has the diagnostic word that was written and the address
    bytes that were written with the first and the last exchanged, which is
    the written sequence reversed; on a 2-byte target the stored bytes
    [0x12, 0x34] read back as the little-endian number [0x1234]. *)
Theorem report_round_trip (mcu : target) (m : machine) (i : Z) :
  let r := m_CrashReport (ApplicationMonitor m) in
  let r' := eval (LoadReport mcu i) (exec (SaveCurrentReport mcu i) m) in
  List.length (m_auAddress r) = PROGRAM_COUNTER_SIZE mcu ->
  0 <= m_uData r < 2 ^ 32 ->
  m_uData r' = m_uData r /\
  m_auAddress r' = swap_ends (PROGRAM_COUNTER_SIZE mcu) (m_auAddress r) /\
  m_auAddress r' = rev (m_auAddress r) /\
  (mcu = OtherAVR -> m_auAddress r = [Byte.x12; Byte.x34] ->
   le_combine (m_auAddress r') = 4660).
Proof.
  intros r r' Hlen Hdata. subst r'.
  rewrite LoadReport_SaveCurrentReport by exact Hlen. fold r. cbn.
  split; [now apply Z.mod_small|].
  split; [reflexivity|].
  split; [now apply swap_ends_rev|].
  intros -> E. rewrite E. reflexivity.
Qed.

Lemma report_round_trip_1234 :
  le_combine
    (m_auAddress
       (eval (LoadReport OtherAVR 0)
          (exec (SaveCurrentReport OtherAVR 0)
             (mkMachine (mkMonitor 500 10 (mkReport [Byte.x12; Byte.x34] 3405691582))
                        erased [] None false))))
  = 4660.
Proof.
  apply (report_round_trip OtherAVR
           (mkMachine (mkMonitor 500 10 (mkReport [Byte.x12; Byte.x34] 3405691582))
                      erased [] None false) 0);
    simpl; try reflexivity; lia.
Defined.

(** ** The watchdog interrupt handler *)

Section Handler.

Variable mcu : target.

Lemma validated_range nMax m :
  let h := LoadHeader_validate nMax (raw_header m) in
  0 <= m_uSavedReports h < 256 /\ 0 <= m_uNextReport h < 256.
Proof.
  cbv zeta. rewrite validate_saved, validate_next.
  destruct (raw_header_range m) as [Hs Hn].
  assert (0 <= to_uint8 nMax < 256) by zsolve.
  destruct (m_uSavedReports (raw_header m) =? 255);
    destruct (m_uSavedReports (raw_header m) >? nMax);
    destruct (m_uNextReport (raw_header m) >=? nMax); lia.
Qed.

Lemma eval_LoadHeader m :
  eval LoadHeader m
  = LoadHeader_validate (c_nMaxEntries (ApplicationMonitor m)) (raw_header m).
Proof. unfold eval. now rewrite LoadHeader_eq. Qed.

(** The machine in which the handler spins. *)
Lemma WatchdogInterruptHandler_eq pc m :
  exec (WatchdogInterruptHandler mcu pc) m =
  let this := ApplicationMonitor m in
  let base := c_nBaseAddress this in
  let h := eval LoadHeader m in
  let r := mkReport (memcpy_pc mcu pc) (m_uData (m_CrashReport this)) in
  let a := eval (GetAddressForReport mcu (m_uNextReport h)) m in
  let h' := trap_header (c_nMaxEntries this) h in
  mkMachine
    (mkMonitor base (c_nMaxEntries this) r)
    (store_block (store_block (eeprom m) a (Report_bytes r) (sizeof_Report mcu))
                 base (Header_bytes h') sizeof_Header)
    (trace m ++ read_events base sizeof_Header
             ++ write_events a (Report_bytes r) (sizeof_Report mcu)
             ++ write_events base (Header_bytes h') sizeof_Header)
    (Some WDTO_120MS) (wdie m).
Proof.
  rewrite eval_LoadHeader.
  unfold exec, WatchdogInterruptHandler, bind.
  rewrite LoadHeader_eq. unfold gets, set_CrashReport.
  rewrite SaveCurrentReport_eq. cbv zeta. rewrite SaveHeader_eq.
  unfold wdt_enable, trap_header. cbn -[LoadHeader_validate store_block write_events read_events to_uint8 Z.geb Z.add].
  rewrite <- !app_assoc.
  destruct (to_uint8 (m_uNextReport _ + 1) >=? c_nMaxEntries (ApplicationMonitor m));
    reflexivity.
Qed.

Lemma trap_header_range nMax h :
  0 <= m_uSavedReports h < 256 ->
  0 <= m_uSavedReports (trap_header nMax h) < 256 /\
  0 <= m_uNextReport (trap_header nMax h) < 256.
Proof.
  intros Hs. unfold trap_header.
  assert (0 <= to_uint8 (m_uNextReport h + 1) < 256) by zsolve.
  assert (0 <= to_uint8 (m_uSavedReports h + 1) < 256) by zsolve.
  destruct (to_uint8 (m_uNextReport h + 1) >=? nMax); simpl; lia.
Qed.

Lemma length_memcpy_pc pc :
  List.length (memcpy_pc mcu pc) = PROGRAM_COUNTER_SIZE mcu.
Proof. unfold memcpy_pc. now rewrite length_map, length_seq. Qed.

Lemma next_slot_range m :
  0 <= m_uNextReport (eval LoadHeader m) < 256.
Proof. rewrite eval_LoadHeader. apply validated_range. Qed.

(** The cells of the slot the handler writes are not header cells. *)
Lemma next_slot_not_header m (j k : nat) :
  (j < sizeof_Header)%nat -> (k < sizeof_Report mcu)%nat ->
  block_addr (c_nBaseAddress (ApplicationMonitor m)) j
  <> block_addr (eval (GetAddressForReport mcu (m_uNextReport (eval LoadHeader m))) m) k.
Proof.
  intros Hj Hk.
  destruct (slot_cell_offset mcu m _ k (next_slot_range m) Hk) as [o [-> [Ho _]]].
  pose proof (next_slot_range m) as Hn.
  assert (o < 2 + 256 * 7)
    by (destruct sizeof_Report_cases with (mcu := mcu) as [E | E];
        rewrite E in *; lia).
  unfold sizeof_Header in Hj. zsolve.
Qed.

Lemma handler_raw_header pc m :
  raw_header (exec (WatchdogInterruptHandler mcu pc) m)
  = trap_header (c_nMaxEntries (ApplicationMonitor m)) (eval LoadHeader m).
Proof.
  rewrite WatchdogInterruptHandler_eq. cbv zeta. unfold raw_header.
  cbn [ApplicationMonitor eeprom c_nBaseAddress].
  set (h' := trap_header _ _).
  set (base := c_nBaseAddress (ApplicationMonitor m)).
  rewrite <- (block_addr_0 base).
  replace (to_uint (base + 1)) with (block_addr base 1) by reflexivity.
  rewrite !store_block_same by (unfold sizeof_Header; simpl; lia).
  simpl. rewrite !byte_unsigned_of_Z.
  destruct (trap_header_range (c_nMaxEntries (ApplicationMonitor m))
              (eval LoadHeader m)) as [Hs Hn].
  { rewrite eval_LoadHeader. apply validated_range. }
  fold h' in Hs, Hn. destruct h' as [s n]; simpl in *.
  now rewrite !to_uint8_small by lia.
Qed.

Lemma handler_monitor pc m :
  ApplicationMonitor (exec (WatchdogInterruptHandler mcu pc) m)
  = mkMonitor (c_nBaseAddress (ApplicationMonitor m))
              (c_nMaxEntries (ApplicationMonitor m))
              (mkReport (memcpy_pc mcu pc)
                        (m_uData (m_CrashReport (ApplicationMonitor m)))).
Proof. now rewrite WatchdogInterruptHandler_eq. Qed.

Lemma handler_eeprom pc m :
  eeprom (exec (WatchdogInterruptHandler mcu pc) m)
  = store_block
      (store_block (eeprom m)
         (eval (GetAddressForReport mcu (m_uNextReport (eval LoadHeader m))) m)
         (Report_bytes (mkReport (memcpy_pc mcu pc)
                                 (m_uData (m_CrashReport (ApplicationMonitor m)))))
         (sizeof_Report mcu))
      (c_nBaseAddress (ApplicationMonitor m))
      (Header_bytes (trap_header (c_nMaxEntries (ApplicationMonitor m))
                                 (eval LoadHeader m)))
      sizeof_Header.
Proof. now rewrite WatchdogInterruptHandler_eq. Qed.

Lemma GetAddressForReport_ext i m m' :
  c_nBaseAddress (ApplicationMonitor m') = c_nBaseAddress (ApplicationMonitor m) ->
  c_nMaxEntries (ApplicationMonitor m') = c_nMaxEntries (ApplicationMonitor m) ->
  eval (GetAddressForReport mcu i) m' = eval (GetAddressForReport mcu i) m.
Proof.
  intros Hb Hm. rewrite !GetAddressForReport_value. cbv zeta.
  now rewrite Hb, Hm.
Qed.

(** The slot the handler wrote, read back in the machine it leaves. *)
Lemma handler_slot pc m :
  eval (LoadReport mcu (m_uNextReport (eval LoadHeader m)))
       (exec (WatchdogInterruptHandler mcu pc) m)
  = {| m_auAddress := swap_ends (PROGRAM_COUNTER_SIZE mcu) (memcpy_pc mcu pc);
       m_uData := to_uint32 (m_uData (m_CrashReport (ApplicationMonitor m))) |}.
Proof.
  rewrite LoadReport_value. cbv zeta.
  rewrite (GetAddressForReport_ext _ m)
    by (rewrite handler_monitor; reflexivity).
  rewrite handler_eeprom.
  rewrite load_store_block_other
    by (intros j k Hj Hk; now apply next_slot_not_header).
  rewrite load_store_block.
  - rewrite firstn_Report_bytes, data_Report_bytes
      by apply length_memcpy_pc.
    reflexivity.
  - destruct sizeof_Report_cases with (mcu := mcu) as [-> | ->]; simpl; lia.
  - apply length_Report_bytes. apply length_memcpy_pc.
Qed.

End Handler.

(** C6. The handler copies the program counter into the address bytes of
    the in-progress report and nothing else: with the diagnostic word set to
    a 32-bit value [v] before the trap, the word is still [v] afterwards, and
    the report found in the slot the handler wrote carries [v]. *)
Theorem handler_keeps_data (mcu : target) (m0 : machine) (v : Z)
  (pc : nat -> byte) :
  let m := exec (SetData v) m0 in
  let m' := exec (WatchdogInterruptHandler mcu pc) m in
  let slot := m_uNextReport (eval LoadHeader m) in
  0 <= v < 2 ^ 32 ->
  eval GetData m = v /\
  eval GetData m' = v /\
  m_uData (eval (LoadReport mcu slot) m') = v /\
  m_auAddress (m_CrashReport (ApplicationMonitor m')) = memcpy_pc mcu pc.
Proof.
  intros m m' slot Hv.
  assert (Hm : m_uData (m_CrashReport (ApplicationMonitor m)) = v).
  { subst m. unfold exec, SetData, set_CrashReport, bind, gets. cbn.
    now apply Z.mod_small. }
  split; [exact Hm|].
  split.
  - subst m'. unfold eval, GetData, bind, gets, ret. cbn [fst].
    now rewrite handler_monitor.
  - split.
    + subst m' slot. rewrite handler_slot. cbn [m_uData]. rewrite Hm.
      now apply Z.mod_small.
    + subst m'. now rewrite handler_monitor.
Qed.

Lemma handler_keeps_data_cafebabe :
  m_uData
    (eval (LoadReport OtherAVR 0)
       (exec (WatchdogInterruptHandler OtherAVR (stack_of [Byte.x12; Byte.x34]))
          (exec (SetData 3405691582) (boot OtherAVR 500 10 erased))))
  = 3405691582.
Proof.
  apply (handler_keeps_data OtherAVR (boot OtherAVR 500 10 erased) 3405691582
           (stack_of [Byte.x12; Byte.x34])).
  lia.
Defined.



(** ** Printing the log *)

Section DumpFacts.

Variable mcu : target.

Lemma length_set_nth i b a : List.length (set_nth i b a) = List.length a.
Proof.
  unfold set_nth. rewrite <- (firstn_skipn i a) at 3.
  rewrite !length_app. f_equal. now destruct (skipn i a).
Qed.

Lemma length_swap_ends n a : List.length (swap_ends n a) = List.length a.
Proof. unfold swap_ends. now rewrite !length_set_nth. Qed.

(** A report returned by [LoadReport] has no more address bytes than the
    program counter. *)
Lemma length_LoadReport_address i m :
  (List.length (m_auAddress (eval (LoadReport mcu i) m))
   <= PROGRAM_COUNTER_SIZE mcu)%nat.
Proof.
  rewrite LoadReport_value. cbv zeta. cbn [m_auAddress].
  rewrite length_swap_ends. apply firstn_le_length.
Qed.

Lemma Dump_report_eq dest i m :
  Dump_report mcu dest i m =
  (dest ++ report_calls i (eval (LoadReport mcu i) m),
   snd (LoadReport mcu i m)).
Proof.
  unfold Dump_report, bind, ret. rewrite LoadReport_eq. cbn [snd].
  f_equal. unfold PrintValue, report_calls.
  rewrite firstn_all2 by apply length_LoadReport_address.
  now rewrite <- !app_assoc.
Qed.

Lemma Dump_report_frame dest i m :
  ApplicationMonitor (snd (Dump_report mcu dest i m)) = ApplicationMonitor m /\
  eeprom (snd (Dump_report mcu dest i m)) = eeprom m.
Proof. rewrite Dump_report_eq, LoadReport_eq. split; reflexivity. Qed.

(** The loop, started at [i] with [n] reports left and enough fuel, prints
    the reports [i .. i + n - 1] in order. *)
Lemma Dump_loop_eq fuel : forall (n i : nat) dest m,
  (n <= fuel)%nat -> Z.of_nat (i + n) < 256 ->
  fst (Dump_loop mcu fuel (Z.of_nat (i + n)) (Z.of_nat i) dest m)
  = dest ++ flat_map
              (fun k => report_calls (Z.of_nat k)
                          (eval (LoadReport mcu (Z.of_nat k)) m))
              (seq i n).
Proof.
  induction fuel as [|fuel IH]; intros n i dest m Hn Hs.
  - assert (n = 0)%nat as -> by lia. simpl. now rewrite app_nil_r.
  - cbn [Dump_loop]. destruct n as [|n].
    + rewrite Nat.add_0_r, Z.ltb_irrefl. simpl. now rewrite app_nil_r.
    + destruct (Z.ltb_spec (Z.of_nat i) (Z.of_nat (i + S n))); [|lia].
      unfold bind. rewrite Dump_report_eq.
      replace (to_uint8 (Z.of_nat i + 1)) with (Z.of_nat (S i)) by zsolve.
      replace (i + S n)%nat with (S i + n)%nat by lia.
      rewrite IH by lia.
      cbn [seq flat_map]. rewrite <- app_assoc. do 2 f_equal.
      apply flat_map_ext. intros k. f_equal.
      apply LoadReport_ext; rewrite LoadReport_eq; reflexivity.
Qed.

Lemma printed_slots_app a b :
  printed_slots (a ++ b) = printed_slots a ++ printed_slots b.
Proof. unfold printed_slots. apply flat_map_app. Qed.

Lemma printed_slots_reports (f : Z -> CCrashReport) l :
  printed_slots (flat_map (fun k => report_calls (Z.of_nat k) (f (Z.of_nat k))) l)
  = map Z.of_nat l.
Proof.
  induction l as [|k l IH]; [reflexivity|].
  cbn [flat_map map]. rewrite printed_slots_app, IH. reflexivity.
Qed.

End DumpFacts.

(** C7. When the validated header counts no saved report, as on an erased
    EEPROM, [Dump] with [bOnlyIfPresent] set leaves the destination as it
    was.  Otherwise it prints the banner followed by the reports of the
    slots [0 .. m_uSavedReports - 1], one per slot and in that order. *)
Theorem Dump_output (mcu : target) (m : machine) (dest : list print_call)
  (bOnlyIfPresent : bool) :
  let h := eval LoadHeader m in
  let saved := Z.to_nat (m_uSavedReports h) in
  let out := eval (Dump mcu dest bOnlyIfPresent) m in
  (eeprom m (to_uint (c_nBaseAddress (ApplicationMonitor m))) = Byte.xff ->
   m_uSavedReports h = 0) /\
  (m_uSavedReports h = 0 -> bOnlyIfPresent = true -> out = dest) /\
  (m_uSavedReports h <> 0 \/ bOnlyIfPresent = false ->
   out = dest ++ banner_calls h
         ++ flat_map (fun k => report_calls (Z.of_nat k)
                                 (eval (LoadReport mcu (Z.of_nat k)) m))
                     (seq 0 saved) /\
   printed_slots out = printed_slots dest ++ map Z.of_nat (seq 0 saved)).
Proof.
  intros h saved out.
  assert (Hh : 0 <= m_uSavedReports h < 256).
  { subst h. rewrite eval_LoadHeader. apply validated_range. }
  split; [|split].
  - intros E. subst h. rewrite eval_LoadHeader, validate_saved.
    unfold raw_header. cbn [m_uSavedReports]. rewrite E. reflexivity.
  - intros E ->. subst out. unfold eval, Dump, bind.
    rewrite LoadHeader_eq. cbn [fst snd]. rewrite <- eval_LoadHeader. fold h.
    rewrite E. reflexivity.
  - intros Hc.
    assert (Hout : out = dest ++ banner_calls h
         ++ flat_map (fun k => report_calls (Z.of_nat k)
                                 (eval (LoadReport mcu (Z.of_nat k)) m))
                     (seq 0 saved)).
    { subst out. unfold eval, Dump, bind.
      rewrite LoadHeader_eq. cbn [fst snd]. rewrite <- eval_LoadHeader. fold h.
      replace (negb bOnlyIfPresent || negb (m_uSavedReports h =? 0)) with true.
      2:{ destruct Hc as [Hc| ->]; [|reflexivity].
          destruct (Z.eqb_spec (m_uSavedReports h) 0); [contradiction|].
          now rewrite orb_true_r. }
      cbv zeta.
      replace (Dump_loop mcu 256 (m_uSavedReports h) 0)
        with (Dump_loop mcu 256 (Z.of_nat (0 + saved)) (Z.of_nat 0))
        by (f_equal; subst saved; lia).
      rewrite Dump_loop_eq by (subst saved; lia).
      unfold PrintValue, banner_calls. rewrite <- !app_assoc. cbn [app].
      do 9 f_equal. apply flat_map_ext. intros k. f_equal.
      apply LoadReport_ext; reflexivity. }
    split; [exact Hout|].
    rewrite Hout, !printed_slots_app.
    rewrite (printed_slots_reports (fun i => eval (LoadReport mcu i) m)).
    reflexivity.
Qed.

Lemma Dump_output_erased :
  eval (Dump ATmega2560 [] true) (boot ATmega2560 500 10 erased) = [].
Proof.
  apply (Dump_output ATmega2560 (boot ATmega2560 500 10 erased) [] true);
    reflexivity.
Defined.

(** ** Consecutive crashes *)

Section Crashes.

Variable mcu : target.

Lemma SetData_frame v m :
  eeprom (exec (SetData v) m) = eeprom m /\
  c_nBaseAddress (ApplicationMonitor (exec (SetData v) m))
  = c_nBaseAddress (ApplicationMonitor m) /\
  c_nMaxEntries (ApplicationMonitor (exec (SetData v) m))
  = c_nMaxEntries (ApplicationMonitor m).
Proof. repeat split. Qed.

Lemma crash_exec t m :
  exec (crash mcu t) m
  = exec (WatchdogInterruptHandler mcu (fst t)) (exec (SetData (snd t)) m).
Proof. reflexivity. Qed.

Lemma crash_config t m :
  c_nBaseAddress (ApplicationMonitor (exec (crash mcu t) m))
  = c_nBaseAddress (ApplicationMonitor m) /\
  c_nMaxEntries (ApplicationMonitor (exec (crash mcu t) m))
  = c_nMaxEntries (ApplicationMonitor m).
Proof. rewrite crash_exec, handler_monitor. split; reflexivity. Qed.

Lemma crash_raw_header t m :
  raw_header (exec (crash mcu t) m)
  = trap_header (c_nMaxEntries (ApplicationMonitor m))
      (LoadHeader_validate (c_nMaxEntries (ApplicationMonitor m)) (raw_header m)).
Proof.
  rewrite crash_exec, handler_raw_header, eval_LoadHeader. reflexivity.
Qed.

Lemma crashes_cons t ts m :
  exec (crashes mcu (t :: ts)) m = exec (crashes mcu ts) (exec (crash mcu t) m).
Proof.
  unfold exec. cbn [crashes]. unfold bind.
  now destruct (crash mcu t m).
Qed.

Lemma crashes_raw_header ts : forall m,
  c_nMaxEntries (ApplicationMonitor (exec (crashes mcu ts) m))
  = c_nMaxEntries (ApplicationMonitor m) /\
  raw_header (exec (crashes mcu ts) m)
  = header_after (c_nMaxEntries (ApplicationMonitor m)) (List.length ts)
                 (raw_header m).
Proof.
  induction ts as [|t ts IH]; intros m.
  - split; reflexivity.
  - rewrite crashes_cons. destruct (IH (exec (crash mcu t) m)) as [E1 E2].
    destruct (crash_config t m) as [_ Hmax].
    rewrite E1, E2, Hmax, crash_raw_header. split; [reflexivity|].
    unfold header_after. cbn [List.length]. now rewrite Nat.iter_succ_r.
Qed.

End Crashes.

(** Headers below the capacity are left alone by the validation. *)
Lemma validate_in_range nMax s n :
  0 <= s <= nMax -> s <> 255 -> 0 <= n < nMax ->
  LoadHeader_validate nMax (mkHeader s n) = mkHeader s n.
Proof.
  intros Hs Hne Hn.
  apply header_eq; rewrite ?validate_saved, ?validate_next; cbn.
  - destruct (Z.eqb_spec s 255); [contradiction|].
    destruct (Z.gtb_spec s nMax); [lia|reflexivity].
  - destruct (Z.geb_spec n nMax); [lia|reflexivity].
Qed.

Lemma header_after_succ nMax k h :
  header_after nMax (S k) h
  = trap_header nMax (LoadHeader_validate nMax (header_after nMax k h)).
Proof. reflexivity. Qed.

(** While the log fills, the stored header counts the crashes. *)
Lemma header_after_filling nMax h (k : nat) :
  1 <= nMax <= 255 ->
  LoadHeader_validate nMax h = mkHeader 0 0 ->
  Z.of_nat k < nMax ->
  LoadHeader_validate nMax (header_after nMax k h)
  = mkHeader (Z.of_nat k) (Z.of_nat k).
Proof.
  intros HN H0. induction k as [|k IH]; intros Hk.
  - exact H0.
  - rewrite header_after_succ, IH by lia.
    unfold trap_header. cbn [m_uSavedReports m_uNextReport].
    rewrite !to_uint8_small by lia.
    destruct (Z.geb_spec (Z.of_nat k + 1) nMax); [lia|].
    rewrite validate_in_range by lia. f_equal; lia.
Qed.

(** The crash that fills the last slot wraps the index and leaves the
    count one short. *)
Lemma header_after_full nMax h (k : nat) :
  1 <= nMax <= 255 ->
  LoadHeader_validate nMax h = mkHeader 0 0 ->
  Z.of_nat k = nMax ->
  header_after nMax k h = mkHeader (nMax - 1) 0.
Proof.
  intros HN H0 Hk. destruct k as [|k]; [simpl in Hk; lia|].
  rewrite header_after_succ, header_after_filling by (auto; lia).
  unfold trap_header. cbn [m_uSavedReports m_uNextReport].
  rewrite !to_uint8_small by lia.
  destruct (Z.geb_spec (Z.of_nat k + 1) nMax); [|lia].
  f_equal. lia.
Qed.

(** C1 (evidence).  From a header that validates to no saved report,
    with a capacity [1 <= c_nMaxEntries <= 255]: after [k < c_nMaxEntries]
    crashes the header reads [(k, k)], and after exactly [c_nMaxEntries]
    crashes the stored header is [(c_nMaxEntries - 1, 0)]: the index has
    wrapped and the crash that filled the last slot was not counted. *)
Theorem crashes_header (mcu : target) (m : machine)
  (ts : list ((nat -> byte) * Z)) :
  let nMax := c_nMaxEntries (ApplicationMonitor m) in
  let k := Z.of_nat (List.length ts) in
  let m' := exec (crashes mcu ts) m in
  1 <= nMax <= 255 ->
  eval LoadHeader m = mkHeader 0 0 ->
  (k < nMax -> eval LoadHeader m' = mkHeader k k) /\
  (k = nMax ->
   raw_header m' = mkHeader (nMax - 1) 0 /\
   eval LoadHeader m' = mkHeader (nMax - 1) 0).
Proof.
  intros nMax k m' HN H0. rewrite eval_LoadHeader in H0. fold nMax in H0.
  destruct (crashes_raw_header mcu ts m) as [Hmax Hraw].
  fold m' nMax in Hmax, Hraw.
  split.
  - intros Hk. rewrite eval_LoadHeader, Hmax, Hraw.
    now apply header_after_filling.
  - intros Hk.
    assert (E : raw_header m' = mkHeader (nMax - 1) 0)
      by (rewrite Hraw; now apply header_after_full).
    split; [exact E|].
    rewrite eval_LoadHeader, Hmax, E. apply validate_in_range; lia.
Qed.

Lemma crashes_header_default :
  raw_header
    (exec (crashes OtherAVR (repeat (stack_of [Byte.x12; Byte.x34], 3405691582) 10))
          (boot OtherAVR 500 10 erased))
  = mkHeader 9 0.
Proof.
  apply (crashes_header OtherAVR (boot OtherAVR 500 10 erased)
           (repeat (stack_of [Byte.x12; Byte.x34], 3405691582) 10));
    simpl; try reflexivity; lia.
Defined.

(** * Further properties of the log *)

(** ** Block transfers and the header on their own *)

Lemma read_events_addr n : forall a e,
  In e (read_events a n) ->
  is_write e = false /\ exists k, (k < n)%nat /\ access_addr e = block_addr a k.
Proof.
  induction n as [|n IH]; intros a e; simpl; [tauto|].
  intros [<-|H].
  - split; auto. exists 0%nat. split; [lia|]. simpl. now rewrite block_addr_0.
  - apply IH in H as [Hw [k [Hk E]]]. split; auto.
    exists (S k). split; [lia|]. now rewrite <- block_addr_step.
Qed.

(** X1. A block written by [WriteBlock] is what [ReadBlock] returns from the
    same address; the write changes no other cell and not the monitor. *)
Theorem WriteBlock_ReadBlock (a : Z) (data : list byte) (m : machine) :
  Z.of_nat (List.length data) <= 255 ->
  eval (ReadBlock a (List.length data))
       (exec (WriteBlock a data (List.length data)) m) = data /\
  (forall q, (forall k, (k < List.length data)%nat -> block_addr a k <> q) ->
     eeprom (exec (WriteBlock a data (List.length data)) m) q = eeprom m q) /\
  ApplicationMonitor (exec (WriteBlock a data (List.length data)) m)
  = ApplicationMonitor m.
Proof.
  intros Hn. unfold exec, eval. rewrite WriteBlock_eq. cbn [snd].
  rewrite ReadBlock_eq. cbn [fst eeprom ApplicationMonitor].
  split; [apply load_store_block; [lia|reflexivity]|].
  split; [|reflexivity].
  intros q Hq. now apply store_block_other.
Qed.

Lemma WriteBlock_ReadBlock_example :
  eval (ReadBlock 1020 3)
       (exec (WriteBlock 1020 [Byte.x01; Byte.x02; Byte.x03] 3)
             (boot OtherAVR 500 10 erased))
  = [Byte.x01; Byte.x02; Byte.x03].
Proof.
  apply (WriteBlock_ReadBlock 1020 [Byte.x01; Byte.x02; Byte.x03]
           (boot OtherAVR 500 10 erased)).
  simpl. lia.
Defined.

Lemma SaveHeader_raw_header h m :
  raw_header (exec (SaveHeader h) m)
  = mkHeader (to_uint8 (m_uSavedReports h)) (to_uint8 (m_uNextReport h)).
Proof.
  unfold exec. rewrite SaveHeader_eq. cbn [snd]. unfold raw_header.
  cbn [ApplicationMonitor eeprom].
  set (base := c_nBaseAddress (ApplicationMonitor m)).
  rewrite <- (block_addr_0 base).
  replace (to_uint (base + 1)) with (block_addr base 1) by reflexivity.
  rewrite !store_block_same by (unfold sizeof_Header; simpl; lia).
  simpl. now rewrite !byte_unsigned_of_Z.
Qed.

(** X2. [LoadHeader] after [SaveHeader] returns the saved header, validated;
    a header within bounds (count at most [c_nMaxEntries] and below [0xff],
    index a byte below [c_nMaxEntries]) comes back unchanged. *)
Theorem SaveHeader_LoadHeader (h : CApplicationMonitorHeader) (m : machine) :
  let nMax := c_nMaxEntries (ApplicationMonitor m) in
  eval LoadHeader (exec (SaveHeader h) m)
  = LoadHeader_validate nMax
      (mkHeader (to_uint8 (m_uSavedReports h)) (to_uint8 (m_uNextReport h))) /\
  (0 <= m_uSavedReports h <= nMax -> m_uSavedReports h < 255 ->
   0 <= m_uNextReport h < nMax -> m_uNextReport h < 256 ->
   eval LoadHeader (exec (SaveHeader h) m) = h).
Proof.
  intros nMax.
  assert (E : eval LoadHeader (exec (SaveHeader h) m)
              = LoadHeader_validate nMax
                  (mkHeader (to_uint8 (m_uSavedReports h))
                            (to_uint8 (m_uNextReport h)))).
  { rewrite eval_LoadHeader, SaveHeader_raw_header.
    unfold exec. rewrite SaveHeader_eq. reflexivity. }
  split; [exact E|].
  intros Hs Hs' Hn Hn'. rewrite E.
  rewrite !to_uint8_small by lia.
  destruct h as [s n]. cbn in *. apply validate_in_range; lia.
Qed.

Lemma SaveHeader_LoadHeader_example :
  eval LoadHeader (exec (SaveHeader (mkHeader 3 4)) (boot OtherAVR 500 10 erased))
  = mkHeader 3 4.
Proof.
  apply (SaveHeader_LoadHeader (mkHeader 3 4) (boot OtherAVR 500 10 erased));
    simpl; lia.
Defined.

(** A validated header is within the bounds of the log. *)
Lemma validated_bounds nMax m :
  0 <= nMax ->
  let h := LoadHeader_validate nMax (raw_header m) in
  0 <= m_uSavedReports h <= nMax /\ m_uSavedReports h <= 254 /\
  0 <= m_uNextReport h <= 255 /\ (1 <= nMax -> m_uNextReport h < nMax).
Proof.
  intros Hmax. cbv zeta. rewrite validate_saved, validate_next.
  destruct (raw_header_range m) as [Hs Hn].
  destruct (Z.eqb_spec (m_uSavedReports (raw_header m)) 255);
    destruct (Z.gtb_spec (m_uSavedReports (raw_header m)) nMax);
    destruct (Z.geb_spec (m_uNextReport (raw_header m)) nMax);
    try rewrite (to_uint8_below nMax (m_uSavedReports (raw_header m))) by lia;
    lia.
Qed.

(** X3. Whatever the EEPROM holds, with a capacity that is not negative
    [LoadHeader] returns a count between 0 and [c_nMaxEntries], never the
    erased value [0xff], and, with at least one slot, an index below
    [c_nMaxEntries]. *)
Theorem LoadHeader_bounds (m : machine) :
  let nMax := c_nMaxEntries (ApplicationMonitor m) in
  let h := eval LoadHeader m in
  0 <= nMax ->
  0 <= m_uSavedReports h <= nMax /\ m_uSavedReports h <> 255 /\
  0 <= m_uNextReport h <= 255 /\ (1 <= nMax -> m_uNextReport h < nMax).
Proof.
  intros nMax h Hmax. subst h. rewrite eval_LoadHeader. fold nMax.
  destruct (validated_bounds nMax m Hmax) as [H1 [H2 [H3 H4]]].
  split; [exact H1|]. split; [lia|]. split; [exact H3|exact H4].
Qed.

Lemma LoadHeader_bounds_example :
  0 <= m_uSavedReports
         (eval LoadHeader
            (boot OtherAVR 500 10 (upd (upd erased 500 Byte.xc8) 501 Byte.x63)))
    <= 10.
Proof.
  apply (LoadHeader_bounds
           (boot OtherAVR 500 10 (upd (upd erased 500 Byte.xc8) 501 Byte.x63))).
  simpl. lia.
Defined.

(** ** What a trap leaves alone *)

Section SlotFrame.

Variable mcu : target.

(** The cells of an in-range slot, as offsets from the base address. *)
Lemma slot_cell_exact m i (k : nat) :
  i < c_nMaxEntries (ApplicationMonitor m) ->
  block_addr (eval (GetAddressForReport mcu i) m) k
  = to_uint (c_nBaseAddress (ApplicationMonitor m)
             + (2 + i * Z.of_nat (sizeof_Report mcu) + Z.of_nat k)).
Proof.
  intros Hi. rewrite GetAddressForReport_value. cbv zeta.
  destruct (Z.ltb_spec i (c_nMaxEntries (ApplicationMonitor m))); [|lia].
  destruct sizeof_Report_cases with (mcu := mcu) as [E | E];
    rewrite E; unfold sizeof_Header; zsolve.
Qed.

(** Two different in-range slots of a log that fits in the address space
    share no cell, and none of them contains a header cell. *)
Lemma slots_disjoint m i j (k l : nat) :
  0 <= i < c_nMaxEntries (ApplicationMonitor m) ->
  0 <= j < c_nMaxEntries (ApplicationMonitor m) ->
  2 + c_nMaxEntries (ApplicationMonitor m) * Z.of_nat (sizeof_Report mcu) <= 65536 ->
  i <> j ->
  (k < sizeof_Report mcu)%nat -> (l < sizeof_Report mcu)%nat ->
  block_addr (eval (GetAddressForReport mcu i) m) k
  <> block_addr (eval (GetAddressForReport mcu j) m) l.
Proof.
  intros Hi Hj Hfit Hne Hk Hl. rewrite !slot_cell_exact by lia.
  set (base := c_nBaseAddress (ApplicationMonitor m)).
  set (o1 := 2 + i * Z.of_nat (sizeof_Report mcu) + Z.of_nat k).
  set (o2 := 2 + j * Z.of_nat (sizeof_Report mcu) + Z.of_nat l).
  assert (H1 : 0 <= o1 < 65536) by (subst o1; nia).
  assert (H2 : 0 <= o2 < 65536) by (subst o2; nia).
  assert (H3 : o1 <> o2) by (subst o1 o2; nia).
  clearbody o1 o2 base. zsolve.
Qed.

Lemma slot_not_header m j (k l : nat) :
  0 <= j < c_nMaxEntries (ApplicationMonitor m) ->
  2 + c_nMaxEntries (ApplicationMonitor m) * Z.of_nat (sizeof_Report mcu) <= 65536 ->
  (k < sizeof_Header)%nat -> (l < sizeof_Report mcu)%nat ->
  block_addr (c_nBaseAddress (ApplicationMonitor m)) k
  <> block_addr (eval (GetAddressForReport mcu j) m) l.
Proof.
  intros Hj Hfit Hk Hl. rewrite slot_cell_exact by lia.
  set (base := c_nBaseAddress (ApplicationMonitor m)).
  set (o := 2 + j * Z.of_nat (sizeof_Report mcu) + Z.of_nat l).
  assert (H1 : 2 <= o < 65536) by (subst o; nia).
  unfold sizeof_Header in Hk.
  clearbody o base. zsolve.
Qed.

Lemma handler_other_slot pc m j :
  0 <= j < c_nMaxEntries (ApplicationMonitor m) ->
  j <> m_uNextReport (eval LoadHeader m) ->
  2 + c_nMaxEntries (ApplicationMonitor m) * Z.of_nat (sizeof_Report mcu) <= 65536 ->
  eval (LoadReport mcu j) (exec (WatchdogInterruptHandler mcu pc) m)
  = eval (LoadReport mcu j) m.
Proof.
  intros Hj Hne Hfit.
  pose proof (next_slot_range m) as Hr.
  assert (Hslot : m_uNextReport (eval LoadHeader m)
                  < c_nMaxEntries (ApplicationMonitor m)).
  { rewrite eval_LoadHeader, validate_next.
    destruct (Z.geb_spec (m_uNextReport (raw_header m))
                (c_nMaxEntries (ApplicationMonitor m))); lia. }
  rewrite !LoadReport_value. cbv zeta.
  rewrite (GetAddressForReport_ext mcu j m)
    by (rewrite handler_monitor; reflexivity).
  rewrite handler_eeprom.
  rewrite load_store_block_other
    by (intros k l Hk Hl; now apply slot_not_header).
  rewrite load_store_block_other
    by (intros k l Hk Hl; apply slots_disjoint; auto; lia).
  reflexivity.
Qed.

End SlotFrame.

(** X4. In a log that fits in the 16-bit address space, a trap changes the
    report of no slot other than the one at the next index. *)
Theorem handler_other_slots (mcu : target) (m : machine) (pc : nat -> byte)
  (j : Z) :
  0 <= j < c_nMaxEntries (ApplicationMonitor m) ->
  j <> m_uNextReport (eval LoadHeader m) ->
  2 + c_nMaxEntries (ApplicationMonitor m) * Z.of_nat (sizeof_Report mcu) <= 65536 ->
  eval (LoadReport mcu j) (exec (WatchdogInterruptHandler mcu pc) m)
  = eval (LoadReport mcu j) m.
Proof. intros. now apply handler_other_slot. Qed.

Lemma handler_other_slots_example :
  eval (LoadReport OtherAVR 3)
       (exec (WatchdogInterruptHandler OtherAVR (stack_of [Byte.x12; Byte.x34]))
             (boot OtherAVR 500 10 erased))
  = eval (LoadReport OtherAVR 3) (boot OtherAVR 500 10 erased).
Proof.
  apply (handler_other_slots OtherAVR (boot OtherAVR 500 10 erased)
           (stack_of [Byte.x12; Byte.x34]) 3);
    vm_compute; try split; congruence.
Defined.

(** ** The index and the count over many crashes *)

Section Sequences.

Variable mcu : target.

Lemma SetData_LoadHeader v m :
  eval LoadHeader (exec (SetData v) m) = eval LoadHeader m.
Proof. rewrite !eval_LoadHeader. reflexivity. Qed.

Lemma crash_LoadHeader t m :
  eval LoadHeader (exec (crash mcu t) m)
  = LoadHeader_validate (c_nMaxEntries (ApplicationMonitor m))
      (trap_header (c_nMaxEntries (ApplicationMonitor m)) (eval LoadHeader m)).
Proof.
  rewrite eval_LoadHeader, crash_raw_header.
  destruct (crash_config mcu t m) as [_ ->].
  now rewrite eval_LoadHeader.
Qed.

Lemma crashes_app ts : forall ts' m,
  exec (crashes mcu (ts ++ ts')) m
  = exec (crashes mcu ts') (exec (crashes mcu ts) m).
Proof.
  induction ts as [|t ts IH]; intros ts' m; [reflexivity|].
  cbn [app]. now rewrite !crashes_cons, IH.
Qed.

Lemma crashes_config ts : forall m,
  c_nBaseAddress (ApplicationMonitor (exec (crashes mcu ts) m))
  = c_nBaseAddress (ApplicationMonitor m) /\
  c_nMaxEntries (ApplicationMonitor (exec (crashes mcu ts) m))
  = c_nMaxEntries (ApplicationMonitor m).
Proof.
  induction ts as [|t ts IH]; intros m; [split; reflexivity|].
  rewrite crashes_cons. destruct (IH (exec (crash mcu t) m)) as [-> ->].
  apply crash_config.
Qed.

(** One trap moves the validated index one step round the log. *)
Lemma next_index_step nMax h :
  1 <= nMax <= 256 -> 0 <= m_uNextReport h < nMax ->
  m_uNextReport (LoadHeader_validate nMax (trap_header nMax h))
  = (m_uNextReport h + 1) mod nMax.
Proof.
  intros HN Hn. rewrite validate_next. unfold trap_header.
  destruct (Z.eq_dec (m_uNextReport h) 255) as [E|E].
  - rewrite E in *. assert (nMax = 256) as -> by lia. reflexivity.
  - rewrite (to_uint8_small (m_uNextReport h + 1)) by lia.
    destruct (Z.geb_spec (m_uNextReport h + 1) nMax) as [G|G];
      cbn [m_uNextReport].
    + assert (m_uNextReport h + 1 = nMax) as -> by lia.
      rewrite Z.mod_same by lia.
      destruct (Z.geb_spec 0 nMax); reflexivity.
    + rewrite Z.mod_small by lia.
      destruct (Z.geb_spec (m_uNextReport h + 1) nMax); [lia|reflexivity].
Qed.

Lemma crashes_next_index ts : forall m,
  1 <= c_nMaxEntries (ApplicationMonitor m) <= 256 ->
  m_uNextReport (eval LoadHeader (exec (crashes mcu ts) m))
  = (m_uNextReport (eval LoadHeader m) + Z.of_nat (List.length ts))
    mod c_nMaxEntries (ApplicationMonitor m).
Proof.
  induction ts as [|t ts IH]; intros m HN.
  - cbn [List.length Z.of_nat]. rewrite Z.add_0_r.
    change (exec (crashes mcu []) m) with m.
    symmetry. apply Z.mod_small.
    rewrite eval_LoadHeader.
    destruct (validated_bounds (c_nMaxEntries (ApplicationMonitor m)) m)
      as [_ [_ [H3 H4]]]; [lia|]. split; [lia|apply H4; lia].
  - rewrite crashes_cons.
    destruct (crash_config mcu t m) as [_ Hc].
    rewrite IH by (rewrite Hc; exact HN). rewrite Hc, crash_LoadHeader.
    rewrite next_index_step; auto.
    + rewrite Z.add_mod_idemp_l by lia. f_equal.
      cbn [List.length]. lia.
    + rewrite eval_LoadHeader.
      destruct (validated_bounds (c_nMaxEntries (ApplicationMonitor m)) m)
        as [_ [_ [H3 H4]]]; [lia|]. split; [lia|apply H4; lia].
Qed.

Lemma crash_slot t m :
  eval (LoadReport mcu (m_uNextReport (eval LoadHeader m)))
       (exec (crash mcu t) m)
  = crash_report mcu t.
Proof.
  rewrite crash_exec, <- (SetData_LoadHeader (snd t) m), handler_slot.
  unfold crash_report. f_equal.
  unfold exec, SetData, set_CrashReport, bind, gets. cbn.
  unfold to_uint32. now rewrite Z.mod_mod.
Qed.

End Sequences.

(** X5. With 1 to 256 slots configured, after any sequence of crashes the
    next index read by [LoadHeader] is the index before them plus their
    number, modulo [c_nMaxEntries]. *)
Theorem crashes_index_cycles (mcu : target) (m : machine)
  (ts : list ((nat -> byte) * Z)) :
  1 <= c_nMaxEntries (ApplicationMonitor m) <= 256 ->
  m_uNextReport (eval LoadHeader (exec (crashes mcu ts) m))
  = (m_uNextReport (eval LoadHeader m) + Z.of_nat (List.length ts))
    mod c_nMaxEntries (ApplicationMonitor m).
Proof. apply crashes_next_index. Qed.

Lemma crashes_index_cycles_example :
  m_uNextReport
    (eval LoadHeader
       (exec (crashes OtherAVR (repeat (stack_of [Byte.x12; Byte.x34], 7) 4))
             (boot OtherAVR 500 3 erased)))
  = (m_uNextReport (eval LoadHeader (boot OtherAVR 500 3 erased)) + 4) mod 3.
Proof.
  apply (crashes_index_cycles OtherAVR (boot OtherAVR 500 3 erased)
           (repeat (stack_of [Byte.x12; Byte.x34], 7) 4)).
  simpl. lia.
Defined.

Lemma crashes_last_slot mcu m ts t :
  1 <= c_nMaxEntries (ApplicationMonitor m) <= 256 ->
  eval (LoadReport mcu
          ((m_uNextReport (eval LoadHeader m) + Z.of_nat (List.length ts))
           mod c_nMaxEntries (ApplicationMonitor m)))
       (exec (crashes mcu (ts ++ [t])) m)
  = crash_report mcu t.
Proof.
  intros HN. rewrite crashes_app.
  rewrite <- (crashes_next_index mcu ts m HN).
  rewrite crashes_cons. change (exec (crashes mcu []) ?x) with x.
  apply crash_slot.
Qed.

(** X6. With 1 to 256 slots configured, after a sequence of crashes the
    report of the last one is in the slot whose index is the index before
    the sequence plus the number of earlier crashes, modulo
    [c_nMaxEntries]: the program counter bytes reversed and the diagnostic
    word of that crash. *)
Theorem last_crash_slot (mcu : target) (m : machine)
  (ts : list ((nat -> byte) * Z)) (t : (nat -> byte) * Z) :
  1 <= c_nMaxEntries (ApplicationMonitor m) <= 256 ->
  eval (LoadReport mcu
          ((m_uNextReport (eval LoadHeader m) + Z.of_nat (List.length ts))
           mod c_nMaxEntries (ApplicationMonitor m)))
       (exec (crashes mcu (ts ++ [t])) m)
  = crash_report mcu t.
Proof. apply crashes_last_slot. Qed.

Lemma last_crash_slot_example :
  eval (LoadReport OtherAVR ((0 + 4) mod 3))
       (exec (crashes OtherAVR
                (repeat (stack_of [Byte.x12; Byte.x34], 7) 4
                 ++ [(stack_of [Byte.x56; Byte.x78], 9)]))
             (boot OtherAVR 500 3 erased))
  = crash_report OtherAVR (stack_of [Byte.x56; Byte.x78], 9).
Proof.
  apply (last_crash_slot OtherAVR (boot OtherAVR 500 3 erased)
           (repeat (stack_of [Byte.x12; Byte.x34], 7) 4)
           (stack_of [Byte.x56; Byte.x78], 9)).
  simpl. lia.
Defined.

Section Counting.

Variable mcu : target.

Lemma crashes_LoadHeader ts m :
  eval LoadHeader (exec (crashes mcu ts) m)
  = LoadHeader_validate (c_nMaxEntries (ApplicationMonitor m))
      (header_after (c_nMaxEntries (ApplicationMonitor m)) (List.length ts)
                    (raw_header m)).
Proof.
  rewrite eval_LoadHeader.
  destruct (crashes_raw_header mcu ts m) as [-> ->]. reflexivity.
Qed.

(** Once the validated count has reached the capacity it stays there; the
    stored count is the capacity or one more. *)
Lemma full_stays_full nMax h :
  1 <= nMax <= 253 -> m_uSavedReports h = nMax ->
  nMax <= m_uSavedReports (trap_header nMax h) <= nMax + 1 /\
  m_uSavedReports (LoadHeader_validate nMax (trap_header nMax h)) = nMax.
Proof.
  intros HN Hs. rewrite validate_saved. unfold trap_header. rewrite Hs.
  rewrite (to_uint8_small (nMax + 1)) by lia.
  destruct (to_uint8 (m_uNextReport h + 1) >=? nMax); cbn [m_uSavedReports].
  - split; [lia|].
    destruct (Z.eqb_spec nMax 255); [lia|].
    destruct (Z.gtb_spec nMax nMax); [lia|reflexivity].
  - split; [lia|].
    destruct (Z.eqb_spec (nMax + 1) 255); [lia|].
    destruct (Z.gtb_spec (nMax + 1) nMax); [|lia].
    apply to_uint8_small. lia.
Qed.

Lemma header_after_overfull nMax h (j : nat) :
  2 <= nMax <= 253 ->
  LoadHeader_validate nMax h = mkHeader 0 0 ->
  let raw := header_after nMax (S (Z.to_nat nMax) + j) h in
  nMax <= m_uSavedReports raw <= nMax + 1 /\
  m_uSavedReports (LoadHeader_validate nMax raw) = nMax.
Proof.
  intros HN H0. induction j as [|j IH]; cbv zeta.
  - rewrite Nat.add_0_r, header_after_succ.
    rewrite header_after_full by (auto; lia).
    rewrite validate_in_range by lia.
    unfold trap_header. cbn [m_uSavedReports m_uNextReport].
    rewrite !to_uint8_small by lia.
    destruct (Z.geb_spec (0 + 1) nMax); [lia|].
    rewrite validate_in_range by lia. cbn. lia.
  - replace (S (Z.to_nat nMax) + S j)%nat
      with (S (S (Z.to_nat nMax) + j)) by lia.
    rewrite header_after_succ.
    apply full_stays_full; [lia|]. apply IH.
Qed.

End Counting.

(** X7. With 2 to 253 slots configured and a header that validates to no
    saved report, after more than [c_nMaxEntries] crashes [LoadHeader]
    returns a count of [c_nMaxEntries]; the count stored in the EEPROM is
    then [c_nMaxEntries] or [c_nMaxEntries + 1]. *)
Theorem crashes_saturate (mcu : target) (m : machine)
  (ts : list ((nat -> byte) * Z)) :
  let nMax := c_nMaxEntries (ApplicationMonitor m) in
  let m' := exec (crashes mcu ts) m in
  2 <= nMax <= 253 ->
  eval LoadHeader m = mkHeader 0 0 ->
  nMax < Z.of_nat (List.length ts) ->
  m_uSavedReports (eval LoadHeader m') = nMax /\
  nMax <= m_uSavedReports (raw_header m') <= nMax + 1.
Proof.
  intros nMax m' HN H0 Hk. rewrite eval_LoadHeader in H0. fold nMax in H0.
  subst m'. rewrite crashes_LoadHeader.
  destruct (crashes_raw_header mcu ts m) as [_ ->]. fold nMax.
  replace (List.length ts)
    with (S (Z.to_nat nMax) + (List.length ts - S (Z.to_nat nMax)))%nat by lia.
  destruct (header_after_overfull nMax (raw_header m)
              (List.length ts - S (Z.to_nat nMax)) HN H0) as [H1 H2].
  split; [exact H2|exact H1].
Qed.

Lemma crashes_saturate_example :
  m_uSavedReports
    (eval LoadHeader
       (exec (crashes OtherAVR (repeat (stack_of [Byte.x12; Byte.x34], 7) 5))
             (boot OtherAVR 500 3 erased)))
  = 3.
Proof.
  apply (crashes_saturate OtherAVR (boot OtherAVR 500 3 erased)
           (repeat (stack_of [Byte.x12; Byte.x34], 7) 5));
    simpl; try reflexivity; lia.
Defined.

(** ** What [Dump] does to the machine *)

Section DumpMachine.

Variable mcu : target.

(** The output of [Dump], in one equation. *)
Lemma Dump_eval m dest b :
  eval (Dump mcu dest b) m =
  let h := eval LoadHeader m in
  if negb b || negb (m_uSavedReports h =? 0)
  then dest ++ banner_calls h
       ++ flat_map (fun k => report_calls (Z.of_nat k)
                               (eval (LoadReport mcu (Z.of_nat k)) m))
                   (seq 0 (Z.to_nat (m_uSavedReports h)))
  else dest.
Proof.
  cbv zeta.
  assert (Hh : 0 <= m_uSavedReports (eval LoadHeader m) < 256)
    by (rewrite eval_LoadHeader; apply validated_range).
  unfold eval at 1, Dump, bind.
  rewrite LoadHeader_eq. cbn [fst snd]. rewrite <- eval_LoadHeader.
  set (h := eval LoadHeader m) in *.
  destruct (negb b || negb (m_uSavedReports h =? 0)); [|reflexivity].
  cbv zeta.
  replace (Dump_loop mcu 256 (m_uSavedReports h) 0)
    with (Dump_loop mcu 256
            (Z.of_nat (0 + Z.to_nat (m_uSavedReports h))) (Z.of_nat 0))
    by (f_equal; lia).
  rewrite Dump_loop_eq by lia.
  unfold PrintValue, banner_calls. rewrite <- !app_assoc. cbn [app].
  do 9 f_equal. apply flat_map_ext. intros k. f_equal.
  apply LoadReport_ext; reflexivity.
Qed.

(** The machine the loop of [Dump] leaves: only the trace has grown, by the
    reads of the slots visited. *)
Lemma Dump_loop_machine fuel : forall (n i : nat) dest m,
  (n <= fuel)%nat -> Z.of_nat (i + n) < 256 ->
  snd (Dump_loop mcu fuel (Z.of_nat (i + n)) (Z.of_nat i) dest m)
  = mkMachine (ApplicationMonitor m) (eeprom m)
      (trace m ++ flat_map
                    (fun k => read_events
                                (eval (GetAddressForReport mcu (Z.of_nat k)) m)
                                (sizeof_Report mcu))
                    (seq i n))
      (wdt m) (wdie m).
Proof.
  induction fuel as [|fuel IH]; intros n i dest m Hn Hs.
  - assert (n = 0)%nat as -> by lia. destruct m; simpl.
    now rewrite app_nil_r.
  - cbn [Dump_loop]. destruct n as [|n].
    + rewrite Nat.add_0_r, Z.ltb_irrefl. destruct m; simpl.
      now rewrite app_nil_r.
    + destruct (Z.ltb_spec (Z.of_nat i) (Z.of_nat (i + S n))); [|lia].
      unfold bind. rewrite Dump_report_eq.
      replace (to_uint8 (Z.of_nat i + 1)) with (Z.of_nat (S i)) by zsolve.
      replace (i + S n)%nat with (S i + n)%nat by lia.
      rewrite IH by lia. rewrite LoadReport_eq.
      cbn [snd ApplicationMonitor eeprom trace wdt wdie seq flat_map].
      rewrite <- app_assoc. reflexivity.
Qed.

Lemma Dump_exec m dest b :
  exists n : nat,
    (n = 0%nat \/ n = Z.to_nat (m_uSavedReports (eval LoadHeader m))) /\
    exec (Dump mcu dest b) m
    = mkMachine (ApplicationMonitor m) (eeprom m)
                (trace m ++ dump_reads mcu m n) (wdt m) (wdie m).
Proof.
  assert (Hh : 0 <= m_uSavedReports (eval LoadHeader m) < 256)
    by (rewrite eval_LoadHeader; apply validated_range).
  unfold exec, Dump, bind.
  rewrite LoadHeader_eq. cbn [fst snd]. rewrite <- eval_LoadHeader.
  set (h := eval LoadHeader m) in *.
  destruct (negb b || negb (m_uSavedReports h =? 0)).
  - exists (Z.to_nat (m_uSavedReports h)). split; [now right|].
    cbv zeta.
    replace (Dump_loop mcu 256 (m_uSavedReports h) 0)
      with (Dump_loop mcu 256
              (Z.of_nat (0 + Z.to_nat (m_uSavedReports h))) (Z.of_nat 0))
      by (f_equal; lia).
    rewrite Dump_loop_machine by lia.
    cbn [ApplicationMonitor eeprom trace wdt wdie].
    unfold dump_reads. now rewrite <- app_assoc.
  - exists 0%nat. split; [now left|].
    unfold ret, dump_reads. cbn [snd seq flat_map]. now rewrite app_nil_r.
Qed.

End DumpMachine.

(** X8. [Dump] only reads: it leaves the monitor, every EEPROM cell and the
    watchdog as they were, it issues no EEPROM write, and with at least one
    slot configured every cell it reads is in the log region. *)
Theorem Dump_reads_only (mcu : target) (m : machine) (dest : list print_call)
  (bOnlyIfPresent : bool) :
  let m' := exec (Dump mcu dest bOnlyIfPresent) m in
  ApplicationMonitor m' = ApplicationMonitor m /\
  eeprom m' = eeprom m /\ wdt m' = wdt m /\ wdie m' = wdie m /\
  exists evs,
    trace m' = trace m ++ evs /\
    forall e, In e evs ->
      is_write e = false /\
      (1 <= c_nMaxEntries (ApplicationMonitor m) ->
       in_log_region mcu (ApplicationMonitor m) (access_addr e)).
Proof.
  intros m'. subst m'.
  destruct (Dump_exec mcu m dest bOnlyIfPresent) as [n [Hn ->]].
  cbn [ApplicationMonitor eeprom wdt wdie trace].
  repeat (split; [reflexivity|]).
  exists (dump_reads mcu m n). split; [reflexivity|].
  intros e He. unfold dump_reads in He.
  set (this := ApplicationMonitor m).
  assert (Hrep : Z.of_nat (sizeof_Report mcu) = 6 \/ Z.of_nat (sizeof_Report mcu) = 7)
    by (destruct sizeof_Report_cases with (mcu := mcu) as [-> | ->]; auto).
  apply in_app_or in He as [He|He].
  - apply read_events_addr in He as [Hr [k [Hk ->]]]. split; [exact Hr|].
    intros Hmax. unfold in_log_region, sizeof_Header in *.
    change (Z.of_nat 2) with 2. fold this.
    replace (to_uint (block_addr (c_nBaseAddress this) k - c_nBaseAddress this))
      with (Z.of_nat k) by zsolve.
    nia.
  - apply in_flat_map in He as [j [Hj He]].
    apply in_seq in Hj.
    apply read_events_addr in He as [Hr [k [Hk ->]]]. split; [exact Hr|].
    intros Hmax.
    assert (Hb : 0 <= m_uSavedReports (eval LoadHeader m) <= c_nMaxEntries this
                 /\ m_uSavedReports (eval LoadHeader m) <= 254).
    { rewrite eval_LoadHeader.
      destruct (validated_bounds (c_nMaxEntries this) m) as [H1 [H2 _]];
        [lia|]. fold this. lia. }
    assert (Hjn : Z.of_nat j < m_uSavedReports (eval LoadHeader m))
      by (destruct Hn as [-> | ->]; lia).
    destruct (slot_cell_offset mcu m (Z.of_nat j) k) as [o [-> [Ho _]]];
      [lia|exact Hk|].
    unfold in_log_region, sizeof_Header. change (Z.of_nat 2) with 2.
    fold this.
    assert (o < 2 + c_nMaxEntries this * Z.of_nat (sizeof_Report mcu)) by nia.
    assert (o < 2 + 256 * 7) by nia.
    replace (to_uint (to_uint (c_nBaseAddress this + o) - c_nBaseAddress this))
      with o by zsolve.
    assumption.
Qed.

Lemma Dump_reads_only_example :
  eeprom (exec (Dump OtherAVR [] false)
               (exec (crash OtherAVR (stack_of [Byte.x12; Byte.x34], 7))
                     (boot OtherAVR 500 10 erased)))
  = eeprom (exec (crash OtherAVR (stack_of [Byte.x12; Byte.x34], 7))
                 (boot OtherAVR 500 10 erased)).
Proof.
  apply (Dump_reads_only OtherAVR
           (exec (crash OtherAVR (stack_of [Byte.x12; Byte.x34], 7))
                 (boot OtherAVR 500 10 erased)) [] false).
Defined.

(** ** Edges of the saved-report count *)

(** X9. With a single slot configured the count never leaves 0: from a
    header that validates to no saved report, after any number of crashes
    [LoadHeader] still returns [(0, 0)] and [Dump] with [bOnlyIfPresent]
    prints nothing, although the slot holds the report of the last crash. *)
Theorem single_slot_never_counts (mcu : target) (m : machine)
  (ts : list ((nat -> byte) * Z)) (dest : list print_call) :
  let m' := exec (crashes mcu ts) m in
  c_nMaxEntries (ApplicationMonitor m) = 1 ->
  eval LoadHeader m = mkHeader 0 0 ->
  eval LoadHeader m' = mkHeader 0 0 /\
  eval (Dump mcu dest true) m' = dest /\
  (forall t, ts <> [] ->
     eval (LoadReport mcu 0) m' = crash_report mcu (last ts t)).
Proof.
  intros m' Hmax H0.
  assert (Hall : forall l m1,
            c_nMaxEntries (ApplicationMonitor m1) = 1 ->
            eval LoadHeader m1 = mkHeader 0 0 ->
            eval LoadHeader (exec (crashes mcu l) m1) = mkHeader 0 0).
  { induction l as [|t l IH]; intros m1 Hm1 Hh; [exact Hh|].
    rewrite crashes_cons. apply IH.
    - destruct (crash_config mcu t m1) as [_ ->]. exact Hm1.
    - rewrite crash_LoadHeader, Hm1, Hh. reflexivity. }
  assert (Hh : eval LoadHeader m' = mkHeader 0 0) by (now apply Hall).
  split; [exact Hh|]. split.
  - rewrite Dump_eval. cbv zeta. rewrite Hh. reflexivity.
  - intros t Hne.
    destruct (exists_last Hne) as [l [t' ->]]. subst m'.
    rewrite last_last, crashes_app, crashes_cons.
    change (exec (crashes mcu []) ?x) with x.
    rewrite <- (crash_slot mcu t' (exec (crashes mcu l) m)).
    now rewrite (Hall l m Hmax H0).
Qed.

Lemma single_slot_never_counts_example :
  eval LoadHeader
    (exec (crashes OtherAVR (repeat (stack_of [Byte.x12; Byte.x34], 7) 3))
          (boot OtherAVR 500 1 erased))
  = mkHeader 0 0.
Proof.
  apply (single_slot_never_counts OtherAVR (boot OtherAVR 500 1 erased)
           (repeat (stack_of [Byte.x12; Byte.x34], 7) 3) []);
    reflexivity.
Defined.

Lemma LoadReport_config mcu i m m' :
  c_nBaseAddress (ApplicationMonitor m') = c_nBaseAddress (ApplicationMonitor m) ->
  c_nMaxEntries (ApplicationMonitor m') = c_nMaxEntries (ApplicationMonitor m) ->
  eeprom m' = eeprom m ->
  eval (LoadReport mcu i) m' = eval (LoadReport mcu i) m.
Proof.
  intros Hb Hm He. rewrite !LoadReport_value. cbv zeta.
  now rewrite (GetAddressForReport_ext mcu i m m' Hb Hm), He.
Qed.

(** X10. The count shares the value [0xff] with the erased marker: when the
    validated count is 254 and the index does not wrap, the trap stores a
    count of 255, which the next [LoadHeader] reads as an erased header, so
    the count drops to 0 and [Dump] with [bOnlyIfPresent] prints nothing. *)
Theorem count_255_reads_as_erased (mcu : target) (m : machine)
  (pc : nat -> byte) (dest : list print_call) :
  let h := eval LoadHeader m in
  let m' := exec (WatchdogInterruptHandler mcu pc) m in
  m_uSavedReports h = 254 ->
  to_uint8 (m_uNextReport h + 1) < c_nMaxEntries (ApplicationMonitor m) ->
  m_uSavedReports (raw_header m') = 255 /\
  m_uSavedReports (eval LoadHeader m') = 0 /\
  eval (Dump mcu dest true) m' = dest.
Proof.
  intros h m' Hs Hn.
  assert (Hraw : m_uSavedReports (raw_header m') = 255).
  { subst m'. rewrite handler_raw_header. fold h. unfold trap_header.
    destruct (Z.geb_spec (to_uint8 (m_uNextReport h + 1))
                (c_nMaxEntries (ApplicationMonitor m))); [lia|].
    cbn [m_uSavedReports]. rewrite Hs. reflexivity. }
  assert (Hv : m_uSavedReports (eval LoadHeader m') = 0).
  { rewrite eval_LoadHeader, validate_saved, Hraw. reflexivity. }
  split; [exact Hraw|]. split; [exact Hv|].
  rewrite Dump_eval. cbv zeta. rewrite Hv. reflexivity.
Qed.

Lemma count_255_reads_as_erased_example :
  m_uSavedReports
    (eval LoadHeader
       (exec (WatchdogInterruptHandler ATmega2560
                (stack_of [Byte.x00; Byte.x12; Byte.x34]))
             (boot ATmega2560 500 254
                   (upd (upd erased 500 Byte.xfe) 501 Byte.x01))))
  = 0.
Proof.
  apply (count_255_reads_as_erased ATmega2560
           (boot ATmega2560 500 254 (upd (upd erased 500 Byte.xfe) 501 Byte.x01))
           (stack_of [Byte.x00; Byte.x12; Byte.x34]) []);
    vm_compute; congruence.
Defined.

(** X11. The index is a [uint8_t] and an erased index is reset only when it
    is at or above [c_nMaxEntries]: with more than 255 slots configured, on
    an erased header the first trap writes its report to slot 255, leaves
    slot 0 as it was (in a log that fits in the address space), and stores
    the header [(1, 0)], so that [Dump] then shows slot 0. *)
Theorem erased_index_with_many_slots (mcu : target) (m : machine)
  (t : (nat -> byte) * Z) :
  let m' := exec (crash mcu t) m in
  255 < c_nMaxEntries (ApplicationMonitor m) ->
  raw_header m = mkHeader 255 255 ->
  eval LoadHeader m = mkHeader 0 255 /\
  eval (LoadReport mcu 255) m' = crash_report mcu t /\
  eval LoadHeader m' = mkHeader 1 0 /\
  (2 + c_nMaxEntries (ApplicationMonitor m) * Z.of_nat (sizeof_Report mcu) <= 65536 ->
   eval (LoadReport mcu 0) m' = eval (LoadReport mcu 0) m).
Proof.
  intros m' Hmax Hraw.
  assert (Hh : eval LoadHeader m = mkHeader 0 255).
  { rewrite eval_LoadHeader, Hraw. apply header_eq.
    - rewrite validate_saved. reflexivity.
    - rewrite validate_next. cbn [m_uNextReport].
      destruct (Z.geb_spec 255 (c_nMaxEntries (ApplicationMonitor m)));
        [lia|reflexivity]. }
  split; [exact Hh|]. split; [|split].
  - subst m'. rewrite <- (crash_slot mcu t m), Hh. reflexivity.
  - subst m'. rewrite crash_LoadHeader, Hh. unfold trap_header.
    cbn [m_uNextReport m_uSavedReports].
    change (to_uint8 (255 + 1)) with 0. change (to_uint8 (0 + 1)) with 1.
    destruct (Z.geb_spec 0 (c_nMaxEntries (ApplicationMonitor m))); [lia|].
    apply validate_in_range; lia.
  - intros Hfit. subst m'. rewrite crash_exec.
    rewrite handler_other_slot.
    + apply LoadReport_config; reflexivity.
    + cbn. lia.
    + rewrite SetData_LoadHeader, Hh. cbn. lia.
    + exact Hfit.
Qed.

Lemma erased_index_with_many_slots_example :
  eval (LoadReport ATmega2560 255)
       (exec (crash ATmega2560 (stack_of [Byte.x00; Byte.x12; Byte.x34], 7))
             (boot ATmega2560 0 300 erased))
  = crash_report ATmega2560 (stack_of [Byte.x00; Byte.x12; Byte.x34], 7).
Proof.
  apply (erased_index_with_many_slots ATmega2560 (boot ATmega2560 0 300 erased)
           (stack_of [Byte.x00; Byte.x12; Byte.x34], 7));
    [simpl; lia | reflexivity].
Defined.

(** ** From the stack to the printed address *)

Lemma lor_shift_add a x :
  0 <= a < 256 -> Z.lor a (Z.shiftl x 8) = a + 256 * x.
Proof.
  intros Ha.
  assert (H : Z.land a (Z.shiftl x 8) = 0).
  { apply Z.bits_inj'. intros n Hn. rewrite Z.land_spec, Z.bits_0.
    destruct (Z.lt_ge_cases n 8).
    - rewrite Z.shiftl_spec_low by lia. apply andb_false_r.
    - replace a with (a mod 2 ^ 8) by (apply Z.mod_small; exact Ha).
      rewrite Z.mod_pow2_bits_high by lia. reflexivity. }
  rewrite <- Z.lxor_lor, <- Z.add_nocarry_lxor by exact H.
  rewrite Z.shiftl_mul_pow2 by lia. change (2 ^ 8) with 256. lia.
Qed.

Lemma le_combine_cons_add b bs :
  le_combine (b :: bs) = byte.unsigned b + 256 * le_combine bs.
Proof. cbn [le_combine]. apply lor_shift_add. apply byte_unsigned_range. Qed.

(** The number [Dump] prints as word address for the report of a crash. *)
Lemma crash_report_address mcu t :
  le_combine (m_auAddress (crash_report mcu t)) = pushed_pc mcu (fst t).
Proof.
  unfold crash_report, pushed_pc, memcpy_pc. cbn [m_auAddress].
  destruct mcu; cbn [PROGRAM_COUNTER_SIZE seq map swap_ends set_nth nth
                     Nat.sub firstn skipn app];
    rewrite !le_combine_cons_add; change (le_combine []) with 0; lia.
Qed.

(** X12. After the first crash on a log with at least two slots whose
    header validated to no saved report, [Dump] prints the banner with one
    saved report and next index 1, then one report: slot 0, the program
    counter that was on the stack (most significant byte first) as word
    address, twice that as byte address, and the diagnostic word. *)
Theorem first_crash_dump (mcu : target) (m : machine)
  (t : (nat -> byte) * Z) (dest : list print_call) :
  let m' := exec (crash mcu t) m in
  2 <= c_nMaxEntries (ApplicationMonitor m) ->
  eval LoadHeader m = mkHeader 0 0 ->
  eval (Dump mcu dest true) m'
  = dest ++ banner_calls (mkHeader 1 1)
    ++ [print_uint8 0;
        print_F ": word-address=0x"; print_value (pushed_pc mcu (fst t)) HEX;
        print_F ": byte-address=0x";
        print_value (to_uint32 (pushed_pc mcu (fst t) * 2)) HEX;
        print_F ", data=0x"; print_value (to_uint32 (snd t)) HEX; println_nl].
Proof.
  intros m' Hmax H0.
  assert (Hh : eval LoadHeader m' = mkHeader 1 1).
  { subst m'. rewrite crash_LoadHeader, H0. unfold trap_header.
    cbn [m_uNextReport m_uSavedReports].
    change (to_uint8 (0 + 1)) with 1.
    destruct (Z.geb_spec 1 (c_nMaxEntries (ApplicationMonitor m))); [lia|].
    apply validate_in_range; lia. }
  assert (Hr : eval (LoadReport mcu 0) m' = crash_report mcu t).
  { subst m'. rewrite <- (crash_slot mcu t m), H0. reflexivity. }
  rewrite Dump_eval. cbv zeta. rewrite Hh. cbn [m_uSavedReports].
  change (negb true || negb (1 =? 0)) with true.
  change (Z.to_nat 1) with 1%nat. cbn [seq flat_map].
  change (Z.of_nat 0) with 0.
  rewrite Hr, app_nil_r. unfold report_calls.
  rewrite crash_report_address. reflexivity.
Qed.

Lemma first_crash_dump_example :
  eval (Dump OtherAVR [] true)
       (exec (crash OtherAVR (stack_of [Byte.x12; Byte.x34], 3405691582))
             (boot OtherAVR 500 10 erased))
  = [] ++ banner_calls (mkHeader 1 1)
    ++ [print_uint8 0;
        print_F ": word-address=0x"; print_value 4660 HEX;
        print_F ": byte-address=0x"; print_value 9320 HEX;
        print_F ", data=0x"; print_value 3405691582 HEX; println_nl].
Proof.
  apply (first_crash_dump OtherAVR (boot OtherAVR 500 10 erased)
           (stack_of [Byte.x12; Byte.x34], 3405691582) []);
    [simpl; lia | reflexivity].
Defined.

(** X13. The interrupt routine hands the handler the address one above the
    stack pointer: after [WDT_vect] the in-progress report holds the
    [PROGRAM_COUNTER_SIZE] bytes of data memory that follow the stack
    pointer, the diagnostic word is untouched, and the slot at the next
    index holds those bytes reversed, so that the address read from it is
    the pushed program counter. *)
Theorem WDT_vect_captures_pc (mcu : target) (ram : Z -> byte) (SP : Z)
  (m : machine) :
  let m' := exec (WDT_vect mcu ram SP) m in
  let pushed := fun k : nat => ram (to_uint (SP + 1 + Z.of_nat k)) in
  let r := eval (LoadReport mcu (m_uNextReport (eval LoadHeader m))) m' in
  m_auAddress (m_CrashReport (ApplicationMonitor m'))
  = map pushed (seq 0 (PROGRAM_COUNTER_SIZE mcu)) /\
  m_uData (m_CrashReport (ApplicationMonitor m'))
  = m_uData (m_CrashReport (ApplicationMonitor m)) /\
  m_auAddress r = rev (map pushed (seq 0 (PROGRAM_COUNTER_SIZE mcu))) /\
  le_combine (m_auAddress r) = pushed_pc mcu pushed.
Proof.
  intros m' pushed r.
  assert (Hpc : memcpy_pc mcu
                  (fun k => ram (to_uint (to_uint (to_uint SP + 1) + Z.of_nat k)))
                = map pushed (seq 0 (PROGRAM_COUNTER_SIZE mcu))).
  { unfold memcpy_pc. apply map_ext. intros k. subst pushed. cbv beta.
    f_equal. zsolve. }
  assert (Hlen : List.length (map pushed (seq 0 (PROGRAM_COUNTER_SIZE mcu)))
                 = PROGRAM_COUNTER_SIZE mcu)
    by (now rewrite length_map, length_seq).
  subst m' r. unfold WDT_vect, appMon_asm_gate. cbv zeta.
  rewrite handler_monitor, handler_slot. cbn [m_CrashReport m_auAddress m_uData].
  rewrite Hpc.
  split; [reflexivity|]. split; [reflexivity|].
  split; [now apply swap_ends_rev|].
  pose proof (crash_report_address mcu (pushed, 0)) as E.
  unfold crash_report, memcpy_pc in E. cbn [fst m_auAddress] in E. exact E.
Qed.

(** ** Header and slots do not disturb each other *)

Section Separation.

Variable mcu : target.

(** The cells [GetAddressForReport] designates for an index that is not
    negative lie at least two cells above the base address. *)
Lemma slot_above_header m i (k : nat) :
  0 <= i ->
  i < 256 \/
  2 + c_nMaxEntries (ApplicationMonitor m) * Z.of_nat (sizeof_Report mcu) <= 65536 ->
  (k < sizeof_Report mcu)%nat ->
  exists o,
    block_addr (eval (GetAddressForReport mcu i) m) k
    = to_uint (c_nBaseAddress (ApplicationMonitor m) + o) /\
    2 <= o < 65536.
Proof.
  intros Hi Hfit Hk.
  assert (Hrep : Z.of_nat (sizeof_Report mcu) = 6 \/ Z.of_nat (sizeof_Report mcu) = 7)
    by (destruct sizeof_Report_cases with (mcu := mcu) as [-> | ->]; auto).
  destruct (Z.lt_ge_cases i (c_nMaxEntries (ApplicationMonitor m))) as [Hin|Hout].
  - exists (2 + i * Z.of_nat (sizeof_Report mcu) + Z.of_nat k).
    split; [now apply slot_cell_exact|]. nia.
  - exists (2 + Z.of_nat k). split; [|lia].
    rewrite GetAddressForReport_value. cbv zeta.
    destruct (Z.ltb_spec i (c_nMaxEntries (ApplicationMonitor m))); [lia|].
    unfold sizeof_Header. zsolve.
Qed.

Lemma header_cell_not_slot m i (j k : nat) :
  0 <= i ->
  i < 256 \/
  2 + c_nMaxEntries (ApplicationMonitor m) * Z.of_nat (sizeof_Report mcu) <= 65536 ->
  (j < sizeof_Header)%nat -> (k < sizeof_Report mcu)%nat ->
  block_addr (c_nBaseAddress (ApplicationMonitor m)) j
  <> block_addr (eval (GetAddressForReport mcu i) m) k.
Proof.
  intros Hi Hfit Hj Hk.
  destruct (slot_above_header m i k Hi Hfit Hk) as [o [-> Ho]].
  unfold sizeof_Header in Hj. zsolve.
Qed.

End Separation.

(** X14. For a slot index that is not negative, below 256 or in a log that
    fits in the 16-bit address space: [SaveCurrentReport] leaves the stored
    header as it was, and [SaveHeader] leaves the report of the slot as it
    was. *)
Theorem header_and_slots_separate (mcu : target) (m : machine) (i : Z)
  (h : CApplicationMonitorHeader) :
  0 <= i ->
  i < 256 \/
  2 + c_nMaxEntries (ApplicationMonitor m) * Z.of_nat (sizeof_Report mcu) <= 65536 ->
  raw_header (exec (SaveCurrentReport mcu i) m) = raw_header m /\
  eval LoadHeader (exec (SaveCurrentReport mcu i) m) = eval LoadHeader m /\
  eval (LoadReport mcu i) (exec (SaveHeader h) m) = eval (LoadReport mcu i) m.
Proof.
  intros Hi Hfit.
  assert (Hraw : raw_header (exec (SaveCurrentReport mcu i) m) = raw_header m).
  { unfold exec. rewrite SaveCurrentReport_eq. cbn [snd]. cbv zeta.
    unfold raw_header. cbn [ApplicationMonitor eeprom].
    set (base := c_nBaseAddress (ApplicationMonitor m)).
    rewrite <- (block_addr_0 base).
    replace (to_uint (base + 1)) with (block_addr base 1) by reflexivity.
    rewrite !store_block_other; [reflexivity| |];
      intros k Hk E; symmetry in E; revert E;
      apply header_cell_not_slot; auto; unfold sizeof_Header; lia. }
  split; [exact Hraw|]. split.
  - rewrite !eval_LoadHeader, Hraw. unfold exec.
    rewrite SaveCurrentReport_eq. reflexivity.
  - rewrite !LoadReport_value. cbv zeta. unfold exec.
    rewrite SaveHeader_eq. cbn [snd eeprom].
    change (eval (GetAddressForReport mcu i) (mkMachine _ _ _ _ _))
      with (eval (GetAddressForReport mcu i) m).
    rewrite load_store_block_other; [reflexivity|].
    intros j k Hj Hk. now apply header_cell_not_slot.
Qed.

Lemma header_and_slots_separate_example :
  raw_header
    (exec (SaveCurrentReport ATmega2560 9)
          (exec (SaveHeader (mkHeader 3 4)) (boot ATmega2560 500 10 erased)))
  = raw_header (exec (SaveHeader (mkHeader 3 4)) (boot ATmega2560 500 10 erased)).
Proof.
  apply (header_and_slots_separate ATmega2560
           (exec (SaveHeader (mkHeader 3 4)) (boot ATmega2560 500 10 erased))
           9 (mkHeader 0 0)).
  - lia.
  - left. lia.
Defined.

(** X15. With 1 to 254 slots configured, the header a trap stores has a
    next index below [c_nMaxEntries] and a count of at most
    [c_nMaxEntries + 1], whatever the EEPROM held before. *)
Theorem handler_stored_header (mcu : target) (m : machine) (pc : nat -> byte) :
  let nMax := c_nMaxEntries (ApplicationMonitor m) in
  let raw := raw_header (exec (WatchdogInterruptHandler mcu pc) m) in
  1 <= nMax <= 254 ->
  0 <= m_uNextReport raw < nMax /\ 0 <= m_uSavedReports raw <= nMax + 1.
Proof.
  intros nMax raw HN. subst raw. rewrite handler_raw_header, eval_LoadHeader.
  fold nMax.
  destruct (validated_bounds nMax m) as [H1 [H2 [H3 H4]]]; [lia|].
  specialize (H4 ltac:(lia)).
  set (h := LoadHeader_validate nMax (raw_header m)) in *.
  unfold trap_header.
  rewrite (to_uint8_small (m_uNextReport h + 1)) by lia.
  rewrite (to_uint8_small (m_uSavedReports h + 1)) by lia.
  destruct (Z.geb_spec (m_uNextReport h + 1) nMax); cbn; lia.
Qed.

Lemma handler_stored_header_example :
  0 <= m_uNextReport
         (raw_header
            (exec (WatchdogInterruptHandler OtherAVR (stack_of [Byte.x12; Byte.x34]))
                  (boot OtherAVR 500 10 (upd (upd erased 500 Byte.xc8) 501 Byte.x63))))
    < 10.
Proof.
  apply (handler_stored_header OtherAVR
           (boot OtherAVR 500 10 (upd (upd erased 500 Byte.xc8) 501 Byte.x63))
           (stack_of [Byte.x12; Byte.x34])).
  simpl. lia.
Defined.

(** X16. With 2 to 255 slots configured and a header that validated to no
    saved report, after exactly [c_nMaxEntries] crashes [Dump] prints the
    slots [0 .. c_nMaxEntries - 2] only: the last slot, which holds the
    report of the last crash, is not printed. *)
Theorem full_log_hides_last (mcu : target) (m : machine)
  (ts : list ((nat -> byte) * Z)) (t : (nat -> byte) * Z)
  (dest : list print_call) :
  let nMax := c_nMaxEntries (ApplicationMonitor m) in
  let m' := exec (crashes mcu (ts ++ [t])) m in
  2 <= nMax <= 255 ->
  eval LoadHeader m = mkHeader 0 0 ->
  Z.of_nat (List.length ts) + 1 = nMax ->
  printed_slots (eval (Dump mcu dest true) m')
  = printed_slots dest ++ map Z.of_nat (seq 0 (List.length ts)) /\
  eval (LoadReport mcu (nMax - 1)) m' = crash_report mcu t.
Proof.
  intros nMax m' HN H0 Hk.
  assert (Hh : eval LoadHeader m' = mkHeader (nMax - 1) 0).
  { subst m'. rewrite crashes_LoadHeader. fold nMax.
    rewrite eval_LoadHeader in H0. fold nMax in H0.
    rewrite header_after_full; auto; try lia.
    - apply validate_in_range; lia.
    - rewrite length_app. cbn [List.length]. lia. }
  split.
  - rewrite Dump_eval. cbv zeta. rewrite Hh. cbn [m_uSavedReports].
    destruct (Z.eqb_spec (nMax - 1) 0); [lia|].
    cbn [negb orb]. rewrite !printed_slots_app.
    rewrite (printed_slots_reports (fun i => eval (LoadReport mcu i) m')).
    replace (Z.to_nat (nMax - 1)) with (List.length ts) by lia.
    reflexivity.
  - subst m'.
    rewrite <- (crashes_last_slot mcu m ts t) by (fold nMax; lia).
    rewrite H0. cbn [m_uNextReport]. fold nMax.
    rewrite Z.add_0_l, Z.mod_small by lia.
    do 2 f_equal. lia.
Qed.

Lemma full_log_hides_last_example :
  printed_slots
    (eval (Dump OtherAVR [] true)
       (exec (crashes OtherAVR
                (repeat (stack_of [Byte.x12; Byte.x34], 7) 2
                 ++ [(stack_of [Byte.x56; Byte.x78], 9)]))
             (boot OtherAVR 500 3 erased)))
  = printed_slots [] ++ map Z.of_nat (seq 0 2).
Proof.
  apply (full_log_hides_last OtherAVR (boot OtherAVR 500 3 erased)
           (repeat (stack_of [Byte.x12; Byte.x34], 7) 2)
           (stack_of [Byte.x56; Byte.x78], 9) []);
    simpl; try reflexivity; lia.
Defined.
